(** * Rotation worker of boxtoplay-v2 ([src/worker.py])

    A shallow embedding of the rotation orchestrator of [worker.py]:
    the state document kept in the gist, the Selenium-driven account
    steps ([process_active_account], [process_target_account],
    [finalize_server]), the lftp transfer ([transfer_world_data]), the
    validation functions and [main].

    External effects (browser, lftp, GitHub API) are answered by an
    oracle [env]; every call the worker makes to the outside world is
    recorded as an [event] in a trace.  Python strings are lists of code
    points; the Unicode tables Python consults ([str.isdigit],
    [str.lower]) are parameters of the section below. *)

From Stdlib Require Import List ZArith String Ascii Bool Lia.
Import ListNotations.
Local Open Scope Z_scope.

(** ** Python strings *)

(** A Python [str]: its list of code points. *)
Definition pystr := list Z.

(** Literal strings of the source (all ASCII). *)
Fixpoint pstr (s : string) : pystr :=
  match s with
  | EmptyString => []
  | String c r => Z.of_nat (nat_of_ascii c) :: pstr r
  end.

Fixpoint str_eqb (a b : pystr) : bool :=
  match a, b with
  | [], [] => true
  | c :: a', d :: b' => Z.eqb c d && str_eqb a' b'
  | _, _ => false
  end.

(** [s.lstrip('#')] *)
Fixpoint lstrip_hash (s : pystr) : pystr :=
  match s with
  | c :: r => if Z.eqb c 35 then lstrip_hash r else s
  | [] => []
  end.

Fixpoint str_prefixb (p s : pystr) : bool :=
  match p, s with
  | [], _ => true
  | c :: p', d :: s' => Z.eqb c d && str_prefixb p' s'
  | _ :: _, [] => false
  end.

(** [p in s] for strings *)
Fixpoint str_contains (s p : pystr) : bool :=
  str_prefixb p s || match s with [] => false | _ :: s' => str_contains s' p end.

(** Decimal digits of a non-negative integer, as [str(n)] prints them. *)
Fixpoint dec_digits (fuel : nat) (n : Z) (acc : pystr) : pystr :=
  match fuel with
  | O => acc
  | S f => if Z.ltb n 10 then (48 + n) :: acc
           else dec_digits f (Z.div n 10) ((48 + Z.modulo n 10) :: acc)
  end.

(** [str(n)] for a Python [int] *)
Definition py_str_int (n : Z) : pystr :=
  if Z.ltb n 0 then 45 :: dec_digits (Z.to_nat (Z.log2 (- n) + 2)) (- n) []
  else dec_digits (Z.to_nat (Z.log2 n + 2)) n [].

(** ** JSON values of the state document

    The scalar values a field of the document can hold. *)
Inductive scalar :=
| SNull
| SBool (b : bool)
| SInt (z : Z)
| SStr (s : pystr).

(** Python truthiness of a scalar *)
Definition py_truthy (v : scalar) : bool :=
  match v with
  | SNull => false
  | SBool b => b
  | SInt z => negb (Z.eqb z 0)
  | SStr s => match s with [] => false | _ => true end
  end.

Definition str_truthy (s : pystr) : bool :=
  match s with [] => false | _ => true end.

(** [d.get(k)]: an absent key reads as [None]. *)
Definition get_null (o : option scalar) : scalar :=
  match o with Some v => v | None => SNull end.

(** [d.get(k, default)] *)
Definition get_default (o : option scalar) (d : scalar) : scalar :=
  match o with Some v => v | None => d end.

(** [v == 0] ([False == 0] holds in Python) *)
Definition py_eq_zero (v : scalar) : bool :=
  match v with
  | SInt z => Z.eqb z 0
  | SBool b => negb b
  | _ => false
  end.

(** [v in [0, 1]] *)
Definition py_in01 (v : scalar) : bool :=
  match v with
  | SInt z => Z.eqb z 0 || Z.eqb z 1
  | SBool _ => true
  | _ => false
  end.

(** [l[i]]: negative indices count from the end, [bool] is an [int],
    anything else raises ([None]). *)
Definition py_index {A} (l : list A) (i : scalar) : option A :=
  let n := Z.of_nat (List.length l) in
  let at_ k := if Z.leb 0 k && Z.ltb k n then nth_error l (Z.to_nat k)
               else if Z.leb (- n) k && Z.ltb k 0 then nth_error l (Z.to_nat (n + k))
               else None in
  match i with
  | SInt k => at_ k
  | SBool b => at_ (if b then 1 else 0)
  | _ => None
  end.

(** [l[i] = v] for an index already known to be in range *)
Fixpoint update_nth {A} (n : nat) (f : A -> A) (l : list A) : list A :=
  match l, n with
  | [], _ => []
  | x :: r, O => f x :: r
  | x :: r, S n' => x :: update_nth n' f r
  end.

(** A cookie dict [{name: value}] as an association list. *)
Definition jar := list (pystr * pystr).

Fixpoint jar_get (j : jar) (k : pystr) : option pystr :=
  match j with
  | [] => None
  | (k', v) :: r => if str_eqb k k' then Some v else jar_get r k
  end.

Definition BOXTOPLAY_SESSION : pystr := pstr "BOXTOPLAY_SESSION".

(** [cookies.get("BOXTOPLAY_SESSION", "")] *)
Definition session_of (j : jar) : pystr :=
  match jar_get j BOXTOPLAY_SESSION with Some v => v | None => [] end.

(** [d[k] = v] on a dict: an existing key keeps its place. *)
Fixpoint dict_set (d : jar) (k v : pystr) : jar :=
  match d with
  | [] => [(k, v)]
  | (k', v') :: r => if str_eqb k k' then (k', v) :: r else (k', v') :: dict_set r k v
  end.

(** The dict comprehension [{c['name']: c['value'] for c in cookies}] of
    [get_all_cookies], on the (name, value) pairs of
    [driver.get_cookies()]. *)
Definition all_cookies_dict (cs : list (pystr * pystr)) : jar :=
  fold_left (fun d c => dict_set d (fst c) (snd c)) cs [].

(** [get_session_cookie]: the value of the first cookie named
    [BOXTOPLAY_SESSION], else [""]. *)
Fixpoint get_session_cookie (cs : list (pystr * pystr)) : pystr :=
  match cs with
  | [] => []
  | (n, v) :: r => if str_eqb n BOXTOPLAY_SESSION then v else get_session_cookie r
  end.

(** One entry of [accounts].  [email] and [password] are read with
    [account[...]]; the other keys with [.get], so they may be absent
    ([None]) or [null] ([Some SNull]). *)
Record account := mk_account {
  email : pystr;
  password : pystr;
  cookies : option jar;
  ftp_host : option scalar;
  ftp_user : option scalar;
  server_id : option scalar;
  acc_ftp_password : option scalar
}.

(** The document [boxtoplay.json] kept in the gist. *)
Record state := mk_state {
  active_account_index : option scalar;
  current_server_id : option scalar;
  ftp_password : option scalar;
  accounts : list account
}.

(** ** The outside world

    The three browser sessions of a run. *)
Inductive phase := PhActive | PhTarget | PhFinal.

(** Answers of the outside world to the calls of one run. *)
Record env := mk_env {
  env_config_ok : bool;            (** [GIST_ID] and [GH_TOKEN] both non-empty *)
  env_ftp_password : pystr;        (** [FTP_PASSWORD] ("" when unset) *)
  env_ip_new_server : pystr;       (** [IP_NEW_SERVER] *)
  env_read_ok : bool;              (** [get_state]: GET answered and content parsed *)
  env_cookie_login : phase -> bool;  (** [login_with_cookie] reached the panel *)
  env_creds_login : phase -> bool;   (** [login_with_credentials] reached the panel *)
  env_panel : phase -> nat -> option pystr;
    (** label of the newest server block at the n-th panel visit of a
        phase; [None]: no block, or an exception *)
  env_offer_price : Z;             (** price of offer 12 on the provider, in cents *)
  env_buy_ok : bool;               (** cart, checkout and CGU steps raised nothing *)
  env_ftp_host : option pystr;     (** FTP host text; [None]: [setup_ftp_account] raised *)
  env_time : Z;                    (** [int(time.time())] *)
  env_cookies : jar;               (** [get_all_cookies] after the modpack install *)
  env_cookies_retry : jar;         (** [get_all_cookies] after reloading the panel *)
  env_download_ok : bool;          (** [lftp mirror] exit status 0 within the timeout *)
  env_upload_ok : bool;            (** [lftp mirror --reverse] exit status 0 within the timeout *)
  env_patch_ok : bool              (** the gist PATCH was accepted *)
}.

(** Source and target of the world transfer: a dict
    [{"host", "user", "password"}]. *)
Record ftp_info := mk_ftp_info {
  fi_host : scalar;
  fi_user : scalar;
  fi_password : scalar
}.

(** The calls a run makes to the outside world. *)
Inductive event :=
| EvGet
| EvLoginCookie (p : phase)
| EvLoginCreds (p : phase)
| EvPanel (p : phase)
| EvDns (p : phase) (sid label : pystr)
| EvStop (p : phase) (sid : pystr)
| EvLogout (p : phase)
| EvBuy
| EvFtpSetup (sid : pystr)
| EvModpack (sid : pystr)
| EvCookies
| EvPanelReload
| EvStart (sid : pystr)
| EvDownload (host : scalar)
| EvUpload (host : scalar)
| EvPatch (doc : state) (accepted : bool).

(** The session an event belongs to. *)
Definition event_phase (ev : event) : option phase :=
  match ev with
  | EvLoginCookie p | EvLoginCreds p | EvPanel p | EvDns p _ _
  | EvStop p _ | EvLogout p => Some p
  | EvBuy | EvFtpSetup _ | EvModpack _ | EvCookies | EvPanelReload => Some PhTarget
  | EvStart _ => Some PhFinal
  | EvGet | EvDownload _ | EvUpload _ | EvPatch _ _ => None
  end.

(** The exceptions that end [main] in its [except] branch (and the
    configuration check that returns 1 before it). *)
Inductive fatal :=
| FConfig | FRead | FIndex | FTargetAuth | FBuy | FServerNotFound
| FFtpSetup | FBadServerId | FBadHost | FBadUser | FNoCookie
| FServerInfo | FMissingBeforeSave | FStateInvalid | FPatch.

(** ** A writer-and-exception monad *)
Inductive res (A : Type) := Ok (a : A) | Err (e : fatal).
Arguments Ok {A} a.
Arguments Err {A} e.

Definition M (A : Type) : Type := (list event * res A)%type.

Definition ret {A} (a : A) : M A := ([], Ok a).
Definition raise {A} (e : fatal) : M A := ([], Err e).
Definition tell (l : list event) : M unit := (l, Ok tt).

Definition bind {A B} (m : M A) (f : A -> M B) : M B :=
  match m with
  | (t1, Ok a) => let (t2, r) := f a in (t1 ++ t2, r)
  | (t1, Err e) => (t1, Err e)
  end.

Notation "'let*' x ':=' m 'in' k" := (bind m (fun x => k))
  (at level 200, x name, m at level 100, k at level 200).

(** Result of [setup_ftp_account]. *)
Record ftp_account := mk_ftp_account {
  fa_host : pystr;
  fa_user : pystr;
  fa_password : scalar
}.

(** Result of [process_target_account]. *)
Record target_result := mk_target_result {
  tr_server_id : pystr;
  tr_ftp_host : pystr;
  tr_ftp_user : pystr;
  tr_ftp_password : scalar;
  tr_cookies : jar
}.

(** What a run leaves behind: [main]'s return value, the document in the
    gist after the run, and the calls made. *)
Record outcome := mk_outcome {
  out_code : Z;
  out_store : state;
  out_trace : list event
}.

(** Errors logged by [validate_server_info]. *)
Inductive info_error :=
| EServerIdEmpty | EServerIdNotDigit | EHostEmpty | EHostInvalid
| EUserEmpty | EUserShort.

(** Errors logged by [validate_state_before_save]. *)
Inductive state_error :=
| StIndexMissing | StIndexInvalid | StCurrentMissing | StCurrentInvalid
| StTargetServerId | StTargetHost | StTargetUser | StTargetCookies
| StMismatch.

Definition opt_truthy (o : option pystr) : bool :=
  match o with Some s => str_truthy s | None => false end.

Definition jar_of (o : option jar) : jar :=
  match o with Some j => j | None => [] end.

Definition jar_truthy (j : jar) : bool :=
  match j with [] => false | _ => true end.

(** ** Concrete inputs

    [str.lower] and [str.isdigit] restricted to the characters the runs
    below use: ASCII letters, the ASCII digits, the superscripts
    U+00B9, U+00B2, U+00B3 and the Arabic-Indic digits U+0660..U+0669, all
    of which Python's [str.isdigit] accepts. *)
Definition ascii_lower (s : pystr) : pystr :=
  map (fun c => if Z.leb 65 c && Z.leb c 90 then c + 32 else c) s.

Definition isdigit_sample (c : Z) : bool :=
  (Z.leb 48 c && Z.leb c 57) || Z.eqb c 178 || Z.eqb c 179 || Z.eqb c 185
  || (Z.leb 1632 c && Z.leb c 1641).

(** The accounts of the docstring of [worker.py]. *)
Definition acc_live : account :=
  mk_account (pstr "compte1@example.com") (pstr "password1")
    (Some [(BOXTOPLAY_SESSION, pstr "old-session")])
    (Some (SStr (pstr "ftp1.boxtoplay.com"))) (Some (SStr (pstr "user_xxx")))
    (Some (SStr (pstr "123456"))) None.

Definition acc_fresh (mail : string) : account :=
  mk_account (pstr mail) (pstr "password2") (Some [])
    (Some SNull) (Some SNull) (Some SNull) None.

(** Slot 0 holds the live server, slot 1 is dormant. *)
Definition st_demo : state :=
  mk_state (Some (SInt 0)) (Some (SStr (pstr "123456"))) (Some (SStr (pstr "motdepasse")))
    [acc_live; acc_fresh "compte2@example.com"].

(** First run: neither slot has a server. *)
Definition st_first : state :=
  mk_state (Some (SInt 0)) (Some SNull) (Some (SStr (pstr "motdepasse")))
    [acc_fresh "compte1@example.com"; acc_fresh "compte2@example.com"].

(** Slot 0 has FTP credentials on file but no server id. *)
Definition st_host_no_id : state :=
  mk_state (Some (SInt 0)) (Some SNull) (Some (SStr (pstr "motdepasse")))
    [mk_account (pstr "compte1@example.com") (pstr "password1") (Some [])
       (Some (SStr (pstr "ftp1.boxtoplay.com"))) (Some (SStr (pstr "user_xxx")))
       (Some SNull) None;
     acc_fresh "compte2@example.com"].

(** The slot about to be activated (slot 1) with an empty server id, an
    empty FTP host and a two-letter FTP user, but a session cookie. *)
Definition st_partial_target : state :=
  mk_state (Some (SInt 1)) (Some (SStr (pstr "123456"))) (Some (SStr (pstr "motdepasse")))
    [acc_live;
     mk_account (pstr "compte2@example.com") (pstr "password2")
       (Some [(BOXTOPLAY_SESSION, pstr "s")])
       (Some (SStr [])) (Some (SStr (pstr "ab"))) (Some (SStr [])) None].

(** A provider that answers every call; the flags choose the outcome of
    the logins against the outgoing account, of the purchase, of the two
    lftp runs and of the gist PATCH. *)
Definition demo_env (cookie_active creds_active buy download upload patch : bool)
    (price : Z) (panel_text : pystr) : env :=
  mk_env true [] (pstr "orny") true
    (fun p => match p with PhActive => cookie_active | _ => true end)
    (fun p => match p with PhActive => creds_active | _ => true end)
    (fun p _ => match p with PhActive => Some (pstr "#123456") | _ => Some panel_text end)
    price buy (Some (pstr "ftp2.boxtoplay.com"))
    1700000000 [(BOXTOPLAY_SESSION, pstr "fresh-session")] []
    download upload patch.

(** The same world with another price for the offer. *)
Definition with_price (e : env) (p : Z) : env :=
  mk_env (env_config_ok e) (env_ftp_password e) (env_ip_new_server e) (env_read_ok e)
    (env_cookie_login e) (env_creds_login e) (env_panel e) p (env_buy_ok e)
    (env_ftp_host e) (env_time e) (env_cookies e) (env_cookies_retry e)
    (env_download_ok e) (env_upload_ok e) (env_patch_ok e).

(** The same world where the cookie login of the final session (the one
    that starts the new server) answers [b]. *)
Definition with_final_login (e : env) (b : bool) : env :=
  mk_env (env_config_ok e) (env_ftp_password e) (env_ip_new_server e) (env_read_ok e)
    (fun p => match p with PhFinal => b | _ => env_cookie_login e p end)
    (env_creds_login e) (env_panel e) (env_offer_price e) (env_buy_ok e)
    (env_ftp_host e) (env_time e) (env_cookies e) (env_cookies_retry e)
    (env_download_ok e) (env_upload_ok e) (env_patch_ok e).

(** Every call succeeds; the new server gets the id 445566. *)
Definition env_all_ok : env := demo_env true true true true true true 0 (pstr "#445566").

(** The document of [st_demo] without its [active_account_index] key. *)
Definition st_no_index : state :=
  mk_state None (current_server_id st_demo) (ftp_password st_demo) (accounts st_demo).

(** What [process_target_account] returns for slot 1 in these runs. *)
Definition demo_target_result : target_result :=
  mk_target_result (pstr "445566") (pstr "ftp2.boxtoplay.com") (pstr "user_1700000000")
    (SStr (pstr "motdepasse")) [(BOXTOPLAY_SESSION, pstr "fresh-session")].

(** The FTP page shows the host "ftp", shorter than five characters. *)
Definition env_short_host : env :=
  mk_env true [] (pstr "orny") true (fun _ => true) (fun _ => true)
    (fun _ _ => Some (pstr "#445566")) 0 true (Some (pstr "ftp"))
    1700000000 [(BOXTOPLAY_SESSION, pstr "fresh-session")] [] true true true.

(** ** The worker *)
Section Worker.

(** Python's [str.isdigit] on one code point and [str.lower], read from
    the Unicode database of the interpreter. *)
Variable isdigit_cp : Z -> bool.
Variable py_lower : pystr -> pystr.

(** [s.isdigit()]: at least one character, all of them digits. *)
Definition py_isdigit (s : pystr) : bool := str_truthy s && forallb isdigit_cp s.

(** [str(v)] *)
Definition py_str (v : scalar) : pystr :=
  match v with
  | SNull => pstr "None"
  | SBool true => pstr "True"
  | SBool false => pstr "False"
  | SInt z => py_str_int z
  | SStr s => s
  end.

(** [validate_server_info(server_id, ftp_host, ftp_user)]: the result and
    the errors it logs. *)
Definition validate_server_info (sid host user : pystr) : bool * list info_error :=
  let e_sid :=
    if negb (str_truthy sid) then [EServerIdEmpty]
    else if negb (py_isdigit (py_str (SStr sid))) then [EServerIdNotDigit] else [] in
  let e_host :=
    if negb (str_truthy host) then [EHostEmpty]
    else if negb (str_contains (py_lower host) (pstr "boxtoplay"))
            && negb (str_contains host (pstr ".")) then [EHostInvalid] else [] in
  let e_user :=
    if negb (str_truthy user) then [EUserEmpty]
    else if Nat.ltb (List.length user) 3 then [EUserShort] else [] in
  let errors := e_sid ++ e_host ++ e_user in
  (match errors with [] => true | _ => false end, errors).

(** [validate_state_before_save(state, target_index)]: the result and the
    errors it logs; [None] when [state["accounts"][target_index]] raises.
    On a wrong number of accounts it returns [False] at once, without
    logging. *)
Definition validate_state_before_save (st : state) (ti : Z)
  : option (bool * list state_error) :=
  if negb (Nat.eqb (List.length (accounts st)) 2) then Some (false, [])
  else
    let e_idx :=
      match active_account_index st with
      | None => [StIndexMissing]
      | Some v => if py_in01 v then [] else [StIndexInvalid]
      end in
    let e_cur :=
      match current_server_id st with
      | None => [StCurrentMissing]
      | Some v => if py_truthy v && negb (py_isdigit (py_str v))
                  then [StCurrentInvalid] else []
      end in
    match py_index (accounts st) (SInt ti) with
    | None => None
    | Some t =>
      let e_sid := if py_truthy (get_null (server_id t)) then [] else [StTargetServerId] in
      let e_host := if py_truthy (get_null (ftp_host t)) then [] else [StTargetHost] in
      let e_user := if py_truthy (get_null (ftp_user t)) then [] else [StTargetUser] in
      let e_cookies :=
        match cookies t with
        | None => [StTargetCookies]
        | Some j => if negb (jar_truthy j) || negb (str_truthy (session_of j))
                    then [StTargetCookies] else []
        end in
      let e_match :=
        if py_truthy (get_null (current_server_id st)) && py_truthy (get_null (server_id t))
        then if str_eqb (py_str (get_null (current_server_id st)))
                        (py_str (get_null (server_id t)))
             then [] else [StMismatch]
        else [] in
      let errors := e_idx ++ e_cur ++ e_sid ++ e_host ++ e_user ++ e_cookies ++ e_match in
      Some (match errors with [] => true | _ => false end, errors)
    end.

(** *** Browser steps *)
Variable e : env.

(** [login_with_cookie]: an empty cookie is refused without a request. *)
Definition login_with_cookie (p : phase) (cookie : pystr) : M bool :=
  if str_truthy cookie
  then let* _ := tell [EvLoginCookie p] in ret (env_cookie_login e p)
  else ret false.

Definition login_with_credentials (p : phase) : M bool :=
  let* _ := tell [EvLoginCreds p] in ret (env_creds_login e p).

(** The login of [process_active_account] and [process_target_account]:
    the stored cookie first, then email and password. *)
Definition account_login (p : phase) (acc : account) : M bool :=
  let cookie := session_of (jar_of (cookies acc)) in
  let* ok := login_with_cookie p cookie in
  if ok then ret true else login_with_credentials p.

(** [get_current_server_id] at the n-th panel visit of a phase *)
Definition get_current_server_id (p : phase) (n : nat) : M (option pystr) :=
  let* _ := tell [EvPanel p] in ret (option_map lstrip_hash (env_panel e p n)).

Definition buy_free_server : M bool :=
  let* _ := tell [EvBuy] in ret (env_buy_ok e).

(** [setup_ftp_account]: the user name is [f"user_{int(time.time())}"];
    typing a [None] password ([send_keys(None)]) raises a [TypeError],
    which the function re-raises. *)
Definition setup_ftp_account (sid : pystr) (pw : scalar) : M ftp_account :=
  let* _ := tell [EvFtpSetup sid] in
  match env_ftp_host e with
  | None => raise FFtpSetup
  | Some h =>
    match pw with
    | SNull => raise FFtpSetup
    | _ => ret (mk_ftp_account h (pstr "user_" ++ py_str_int (env_time e)) pw)
    end
  end.

Definition get_all_cookies : M jar :=
  let* _ := tell [EvCookies] in ret (env_cookies e).

(** The loop [for attempt in range(10)] of [process_target_account]:
    [server_id] keeps the value of the last visit. *)
Fixpoint poll_server_id (fuel attempt : nat) (last : option pystr) : M (option pystr) :=
  match fuel with
  | O => ret last
  | S f =>
    let* s := get_current_server_id PhTarget attempt in
    if opt_truthy s then ret s else poll_server_id f (S attempt) s
  end.

Definition process_active_account (acc : account) : M (option ftp_info) :=
  let* ok := account_login PhActive acc in
  if negb ok then ret None
  else
    let* sid := get_current_server_id PhActive 0 in
    let* _ := match sid with
              | Some s => if str_truthy s
                          then tell [EvDns PhActive s []; EvStop PhActive s]
                          else ret tt
              | None => ret tt
              end in
    let info := mk_ftp_info (get_null (ftp_host acc)) (get_null (ftp_user acc))
                  (if str_truthy (env_ftp_password e) then SStr (env_ftp_password e)
                   else get_default (acc_ftp_password acc) (SStr [])) in
    let* _ := tell [EvLogout PhActive] in
    ret (Some info).

Definition process_target_account (acc : account) (pw : scalar) : M target_result :=
  let* ok := account_login PhTarget acc in
  if negb ok then raise FTargetAuth else
  let* bought := buy_free_server in
  if negb bought then raise FBuy else
  let* found := poll_server_id 10 0 None in
  match found with
  | None => raise FServerNotFound
  | Some sid =>
    if negb (str_truthy sid) then raise FServerNotFound else
    let* _ := tell [EvDns PhTarget sid (env_ip_new_server e)] in
    let* info := setup_ftp_account sid pw in
    let* _ := tell [EvModpack sid] in
    let* fresh := get_all_cookies in
    if negb (str_truthy sid) || negb (py_isdigit (py_str (SStr sid)))
    then raise FBadServerId else
    if negb (str_truthy (fa_host info)) || Nat.ltb (List.length (fa_host info)) 5
    then raise FBadHost else
    if negb (str_truthy (fa_user info)) || Nat.ltb (List.length (fa_user info)) 3
    then raise FBadUser else
    let* cookies' :=
      if str_truthy (session_of fresh) then ret fresh
      else
        let* _ := tell [EvPanelReload; EvCookies] in
        if str_truthy (session_of (env_cookies_retry e))
        then ret (env_cookies_retry e) else raise FNoCookie in
    if negb (fst (validate_server_info sid (fa_host info) (fa_user info)))
    then raise FServerInfo else
    ret (mk_target_result sid (fa_host info) (fa_user info) pw cookies')
  end.

(** [transfer_world_data(source_ftp, target_ftp)] *)
Definition transfer_world_data (src : option ftp_info) (tgt : ftp_info) : M bool :=
  match src with
  | None => ret true
  | Some s =>
    if negb (py_truthy (fi_host s)) then ret true else
    let* _ := tell [EvDownload (fi_host s)] in
    if negb (env_download_ok e) then ret true else
    let* _ := tell [EvUpload (fi_host tgt)] in
    ret (env_upload_ok e)
  end.

Definition finalize_server (acc : account) (sid : pystr) : M unit :=
  let cookie := session_of (jar_of (cookies acc)) in
  let* ok := login_with_cookie PhFinal cookie in
  if ok then tell [EvStart sid; EvLogout PhFinal] else ret tt.

(** [{**target_account, **target_result}] *)
Definition merge_result (a : account) (r : target_result) : account :=
  mk_account (email a) (password a) (Some (tr_cookies r))
    (Some (SStr (tr_ftp_host r))) (Some (SStr (tr_ftp_user r)))
    (Some (SStr (tr_server_id r))) (Some (tr_ftp_password r)).

(** The assignments of step 6 of [main]. *)
Definition commit (st : state) (ni : Z) (r : target_result) : state :=
  mk_state (Some (SInt ni)) (Some (SStr (tr_server_id r))) (ftp_password st)
    (update_nth (Z.to_nat ni)
       (fun a => mk_account (email a) (password a) (Some (tr_cookies r))
                   (Some (SStr (tr_ftp_host r))) (Some (SStr (tr_ftp_user r)))
                   (Some (SStr (tr_server_id r))) (acc_ftp_password a))
       (accounts st)).

(** [update_state(new_state, target_index=None)] in full: the document
    is validated only when an index is given, and the function returns
    [None]. *)
Definition update_state_opt (st : state) (ti : option Z) : M unit :=
  if negb (env_config_ok e) then raise FConfig else
  let* _ := match ti with
            | None => ret tt
            | Some i =>
              match validate_state_before_save st i with
              | None => raise FIndex
              | Some (false, _) => raise FStateInvalid
              | Some (true, _) => ret tt
              end
            end in
  let* _ := tell [EvPatch st (env_patch_ok e)] in
  if env_patch_ok e then ret tt else raise FPatch.

(** The call [update_state(state, target_index=next_index)] of [main]; it
    returns the document, which the gist holds once it returns. *)
Definition update_state (st : state) (ti : Z) : M state :=
  if negb (env_config_ok e) then raise FConfig else
  match validate_state_before_save st ti with
  | None => raise FIndex
  | Some (false, _) => raise FStateInvalid
  | Some (true, _) =>
    let* _ := tell [EvPatch st (env_patch_ok e)] in
    if env_patch_ok e then ret st else raise FPatch
  end.

(** The [try] block of [main]. *)
Definition main_try (st : state) : M state :=
  let* _ := tell [EvGet] in
  if negb (env_read_ok e) then raise FRead else
  let ci := get_default (active_account_index st) (SInt 0) in
  let ni := if py_eq_zero ci then 1 else 0 in
  match py_index (accounts st) ci, py_index (accounts st) (SInt ni) with
  | Some act, Some tgt =>
    let pw := if str_truthy (env_ftp_password e) then SStr (env_ftp_password e)
              else get_default (ftp_password st) (SStr (pstr "defaultpass")) in
    let* src := if py_truthy (get_null (ftp_host act))
                then process_active_account act else ret None in
    let* r := process_target_account tgt pw in
    let tftp := mk_ftp_info (SStr (tr_ftp_host r)) (SStr (tr_ftp_user r)) pw in
    let* _ := transfer_world_data src tftp in
    let* _ := finalize_server (merge_result tgt r) (tr_server_id r) in
    if negb (str_truthy (tr_server_id r)) then raise FMissingBeforeSave else
    if negb (str_truthy (tr_ftp_host r)) then raise FMissingBeforeSave else
    if negb (str_truthy (tr_ftp_user r)) then raise FMissingBeforeSave else
    if negb (str_truthy (session_of (tr_cookies r))) then raise FMissingBeforeSave else
    update_state (commit st ni r) ni
  | _, _ => raise FIndex
  end.

(** [main()], with the document in the gist before the run. *)
Definition run (st : state) : M state :=
  if negb (env_config_ok e) then raise FConfig else main_try st.

Definition main (st : state) : outcome :=
  match run st with
  | (t, Ok st') => mk_outcome 0 st' t
  | (t, Err _) => mk_outcome 1 st t
  end.

End Worker.

(** ** Auxiliary definitions for the statements *)

(** [next_index] of [main] *)
Definition next_index (st : state) : Z :=
  if py_eq_zero (get_default (active_account_index st) (SInt 0)) then 1 else 0.

Definition is_err {A} (r : res A) : bool :=
  match r with Ok _ => false | Err _ => true end.

(** Every event of the trace of [m] satisfies [P]. *)
Definition all_ev (P : event -> bool) {A} (m : M A) : Prop := forallb P (fst m) = true.

(** ... whenever [m] raises. *)
Definition err_ev (P : event -> bool) {A} (m : M A) : Prop :=
  is_err (snd m) = true -> all_ev P m.

Definition not_accepted_patch (ev : event) : bool :=
  match ev with EvPatch _ true => false | _ => true end.

Definition is_active_ev (ev : event) : bool :=
  match event_phase ev with Some PhActive => true | _ => false end.

Definition is_transfer_ev (ev : event) : bool :=
  match ev with EvDownload _ | EvUpload _ => true | _ => false end.

(** Provider, lftp and gist calls that come after the purchase request in
    a run. *)
Definition is_post_purchase (ev : event) : bool :=
  match ev with
  | EvGet | EvLoginCookie _ | EvLoginCreds _ | EvBuy => false
  | EvPanel p | EvDns p _ _ | EvStop p _ | EvLogout p =>
      match p with PhActive => false | _ => true end
  | _ => true
  end.

Definition is_ascii_digit (c : Z) : bool := Z.leb 48 c && Z.leb c 57.

(** The FTP password [main] hands to [process_target_account]. *)
Definition main_ftp_password (e : env) (st : state) : scalar :=
  if str_truthy (env_ftp_password e) then SStr (env_ftp_password e)
  else get_default (ftp_password st) (SStr (pstr "defaultpass")).

(** The FTP credentials [process_active_account] returns for an account,
    once the login has succeeded. *)
Definition captured_ftp (e : env) (acc : account) : ftp_info :=
  mk_ftp_info (get_null (ftp_host acc)) (get_null (ftp_user acc))
    (if str_truthy (env_ftp_password e) then SStr (env_ftp_password e)
     else get_default (acc_ftp_password acc) (SStr [])).

Definition is_target_panel (ev : event) : bool :=
  match ev with EvPanel PhTarget => true | _ => false end.

(** The id [get_current_server_id] reads at the n-th panel visit of the
    new account. *)
Definition panel_id (e : env) (n : nat) : option pystr :=
  option_map lstrip_hash (env_panel e PhTarget n).

Definition is_patch (ev : event) : bool :=
  match ev with EvPatch _ _ => true | _ => false end.

Definition is_start (ev : event) : bool :=
  match ev with EvStart _ => true | _ => false end.

(** [m] makes at most one PATCH, as its last call, and ends with the
    patched document exactly when the PATCH was accepted. *)
Definition patch_last (m : M state) : Prop :=
  forall pre d b post, fst m = pre ++ EvPatch d b :: post ->
    post = [] /\ snd m = (if b then Ok d else Err FPatch).

(** ** Generic lemmas on the monad *)

Arguments py_index : simpl never.

Lemma bind_ok_inv {A B} (m : M A) (f : A -> M B) b :
  snd (bind m f) = Ok b -> exists a, snd m = Ok a /\ snd (f a) = Ok b.
Proof.
  destruct m as [t [a|x]]; simpl.
  - destruct (f a) as [t2 r] eqn:Hf. simpl. intros ->. exists a. rewrite Hf. auto.
  - discriminate.
Qed.

Lemma bind_ok {A B} (m : M A) (f : A -> M B) t a :
  m = (t, Ok a) -> bind m f = (t ++ fst (f a), snd (f a)).
Proof. intros ->. simpl. destruct (f a); reflexivity. Qed.

Lemma bind_err {A B} (m : M A) (f : A -> M B) t x :
  m = (t, Err x) -> bind m f = (t, Err x).
Proof. intros ->. reflexivity. Qed.

Lemma all_ev_ret P {A} (a : A) : all_ev P (ret a).
Proof. reflexivity. Qed.

Lemma all_ev_raise P {A} x : all_ev P (@raise A x).
Proof. reflexivity. Qed.

Lemma all_ev_bind P {A B} (m : M A) (f : A -> M B) :
  all_ev P m -> (forall a, snd m = Ok a -> all_ev P (f a)) -> all_ev P (bind m f).
Proof.
  unfold all_ev. destruct m as [t [a|x]]; simpl; intros Hm Hf; auto.
  specialize (Hf a eq_refl). destruct (f a) as [t2 r]. simpl in *.
  rewrite forallb_app, Hm, Hf. reflexivity.
Qed.

Lemma err_ev_of_all P {A} (m : M A) : all_ev P m -> err_ev P m.
Proof. unfold err_ev. auto. Qed.

Lemma err_ev_bind P {A B} (m : M A) (f : A -> M B) :
  all_ev P m -> (forall a, snd m = Ok a -> err_ev P (f a)) -> err_ev P (bind m f).
Proof.
  unfold err_ev, all_ev. destruct m as [t [a|x]]; simpl; intros Hm Hf; auto.
  specialize (Hf a eq_refl). destruct (f a) as [t2 r]. simpl in *.
  intros Hr. rewrite forallb_app, Hm, (Hf Hr). reflexivity.
Qed.

Lemma existsb_bind P {A B} (m : M A) (f : A -> M B) :
  existsb P (fst m) = true -> existsb P (fst (bind m f)) = true.
Proof.
  destruct m as [t [a|x]]; simpl; auto.
  destruct (f a) as [t2 r]. simpl. intros H. rewrite existsb_app, H. reflexivity.
Qed.

Lemma all_ev_tell P l : forallb P l = true -> all_ev P (tell l).
Proof. auto. Qed.

Create HintDb trace_db.
#[local] Hint Resolve all_ev_ret all_ev_raise err_ev_of_all : trace_db.

(** Walks through a computation built with [let*], [if] and [match],
    leaving one goal per event list told. *)
Ltac walk :=
  repeat (first
    [ solve [ eauto with trace_db ]
    | apply all_ev_bind; [ | intros ? ? ]
    | apply err_ev_bind; [ | intros ? ? ]
    | apply all_ev_ret
    | apply all_ev_raise
    | apply err_ev_of_all; apply all_ev_ret
    | apply err_ev_of_all; apply all_ev_raise
    | apply all_ev_tell; reflexivity
    | match goal with
      | |- all_ev _ (if ?b then _ else _) => destruct b
      | |- err_ev _ (if ?b then _ else _) => destruct b
      | |- all_ev _ (match ?x with _ => _ end) => destruct x
      | |- err_ev _ (match ?x with _ => _ end) => destruct x
      end ]).

(** ** Which calls each step makes *)

Section Traces.
Variable isd : Z -> bool.
Variable low : pystr -> pystr.
Variable e : env.

Lemma poll_no_patch fuel k last : all_ev not_accepted_patch (poll_server_id e fuel k last).
Proof.
  revert k last. induction fuel as [|f IH]; intros k last; cbn [poll_server_id].
  - apply all_ev_ret.
  - unfold get_current_server_id. walk.
Qed.

Lemma poll_no_active fuel k last :
  all_ev (fun ev => negb (is_active_ev ev)) (poll_server_id e fuel k last).
Proof.
  revert k last. induction fuel as [|f IH]; intros k last; cbn [poll_server_id].
  - apply all_ev_ret.
  - unfold get_current_server_id. walk.
Qed.

Lemma poll_no_transfer fuel k last :
  all_ev (fun ev => negb (is_transfer_ev ev)) (poll_server_id e fuel k last).
Proof.
  revert k last. induction fuel as [|f IH]; intros k last; cbn [poll_server_id].
  - apply all_ev_ret.
  - unfold get_current_server_id. walk.
Qed.

#[local] Hint Resolve poll_no_patch poll_no_active poll_no_transfer : trace_db.

Ltac unfold_steps :=
  unfold process_target_account, process_active_account, transfer_world_data,
    finalize_server, update_state, account_login, buy_free_server,
    setup_ftp_account, get_all_cookies, get_current_server_id,
    login_with_cookie, login_with_credentials;
  cbv beta zeta.

Ltac solve_trace :=
  unfold_steps; walk; try solve [ eauto with trace_db ].

Lemma active_no_patch acc : all_ev not_accepted_patch (process_active_account e acc).
Proof. solve_trace. Qed.

Lemma active_no_transfer acc :
  all_ev (fun ev => negb (is_transfer_ev ev)) (process_active_account e acc).
Proof. solve_trace. Qed.

Lemma active_no_post_purchase acc :
  all_ev (fun ev => negb (is_post_purchase ev)) (process_active_account e acc).
Proof. solve_trace. Qed.

Lemma target_no_patch acc pw :
  all_ev not_accepted_patch (process_target_account isd low e acc pw).
Proof. solve_trace. Qed.

Lemma target_no_active acc pw :
  all_ev (fun ev => negb (is_active_ev ev)) (process_target_account isd low e acc pw).
Proof. solve_trace. Qed.

Lemma target_no_transfer acc pw :
  all_ev (fun ev => negb (is_transfer_ev ev)) (process_target_account isd low e acc pw).
Proof. solve_trace. Qed.

Lemma transfer_no_patch src tgt : all_ev not_accepted_patch (transfer_world_data e src tgt).
Proof. solve_trace. Qed.

Lemma transfer_no_active src tgt :
  all_ev (fun ev => negb (is_active_ev ev)) (transfer_world_data e src tgt).
Proof. solve_trace. Qed.

Lemma finalize_no_patch acc sid : all_ev not_accepted_patch (finalize_server e acc sid).
Proof. solve_trace. Qed.

Lemma finalize_no_active acc sid :
  all_ev (fun ev => negb (is_active_ev ev)) (finalize_server e acc sid).
Proof. solve_trace. Qed.

Lemma finalize_no_transfer acc sid :
  all_ev (fun ev => negb (is_transfer_ev ev)) (finalize_server e acc sid).
Proof. solve_trace. Qed.

Lemma update_err_no_patch st ti : err_ev not_accepted_patch (update_state isd e st ti).
Proof.
  unfold update_state. destruct (env_config_ok e); simpl; [|auto with trace_db].
  destruct (validate_state_before_save isd st ti) as [[[|] l]|]; simpl;
    [|auto with trace_db|auto with trace_db].
  destruct (env_patch_ok e) eqn:Hp; unfold err_ev, all_ev; simpl; rewrite ?Hp; auto.
  all: try discriminate.
Qed.

Lemma update_no_active st ti :
  all_ev (fun ev => negb (is_active_ev ev)) (update_state isd e st ti).
Proof. solve_trace. Qed.

Lemma update_no_transfer st ti :
  all_ev (fun ev => negb (is_transfer_ev ev)) (update_state isd e st ti).
Proof. solve_trace. Qed.

End Traces.

#[local] Hint Resolve active_no_patch active_no_transfer active_no_post_purchase
  target_no_patch target_no_active target_no_transfer transfer_no_patch
  transfer_no_active finalize_no_patch finalize_no_active finalize_no_transfer
  update_err_no_patch update_no_active update_no_transfer : trace_db.

Lemma run_err_no_patch isd low e st : err_ev not_accepted_patch (run isd low e st).
Proof.
  unfold run, main_try. cbv beta zeta. walk.
Qed.

Lemma main_trace isd low e st : out_trace (main isd low e st) = fst (run isd low e st).
Proof. unfold main. destruct (run isd low e st) as [t [a|x]]; reflexivity. Qed.

Lemma main_err isd low e st x :
  snd (run isd low e st) = Err x ->
  out_code (main isd low e st) = 1 /\ out_store (main isd low e st) = st.
Proof. unfold main. destruct (run isd low e st) as [t [a|y]]; simpl; [discriminate|auto]. Qed.

Lemma main_ok_code isd low e st :
  out_code (main isd low e st) = 0 ->
  exists t st', run isd low e st = (t, Ok st') /\ out_store (main isd low e st) = st'.
Proof.
  unfold main. destruct (run isd low e st) as [t [a|y]]; simpl; [|discriminate].
  intros _. eauto.
Qed.

Lemma bind_tell {B} l (f : unit -> M B) : bind (tell l) f = (l ++ fst (f tt), snd (f tt)).
Proof. apply bind_ok. reflexivity. Qed.

Lemma existsb_false_of_forallb (P : event -> bool) l :
  forallb (fun ev => negb (P ev)) l = true -> existsb P l = false.
Proof.
  induction l as [|x l IH]; simpl; auto.
  destruct (P x); simpl; [discriminate|auto].
Qed.

Lemma target_buy_fail isd low e acc pw :
  env_buy_ok e = false ->
  is_err (snd (process_target_account isd low e acc pw)) = true /\
  all_ev (fun ev => negb (is_post_purchase ev)) (process_target_account isd low e acc pw).
Proof.
  intros Hb. unfold process_target_account, account_login, buy_free_server,
    login_with_cookie, login_with_credentials. cbv beta zeta.
  destruct (str_truthy (session_of (jar_of (cookies acc)))), (env_cookie_login e PhTarget),
    (env_creds_login e PhTarget); simpl; rewrite ?Hb; simpl; split; reflexivity.
Qed.

Lemma run_buy_fail isd low e st :
  env_buy_ok e = false ->
  is_err (snd (run isd low e st)) = true /\
  all_ev (fun ev => negb (is_post_purchase ev)) (run isd low e st).
Proof.
  intros Hb. unfold run. destruct (env_config_ok e); simpl; [|split; reflexivity].
  unfold main_try. rewrite bind_tell. cbv beta zeta.
  destruct (env_read_ok e); simpl; [|split; reflexivity].
  destruct (py_index (accounts st) (get_default (active_account_index st) (SInt 0)))
    as [act|]; [|split; reflexivity].
  match goal with |- context [py_index (accounts st) ?i] =>
    destruct (py_index (accounts st) i) as [tgt|]; [|split; reflexivity] end.
  set (pw := if str_truthy (env_ftp_password e) then _ else _).
  assert (Ha : all_ev (fun ev => negb (is_post_purchase ev))
                 (if py_truthy (get_null (ftp_host act)) then process_active_account e act
                  else ret None))
    by (destruct (py_truthy _); [apply active_no_post_purchase|apply all_ev_ret]).
  destruct (if py_truthy (get_null (ftp_host act)) then _ else _) as [t1 [src|x]] eqn:Hs.
  - rewrite (bind_ok _ _ t1 src eq_refl).
    destruct (target_buy_fail isd low e tgt pw Hb) as [Herr Hall].
    destruct (process_target_account isd low e tgt pw) as [t2 [r|y]] eqn:Ht;
      [discriminate|].
    rewrite (bind_err _ _ t2 y eq_refl). simpl. split; [reflexivity|].
    unfold all_ev in *. simpl in *. rewrite forallb_app, Ha, Hall. reflexivity.
  - rewrite (bind_err _ _ t1 x eq_refl). split; [reflexivity|]. exact Ha.
Qed.

Ltac ok_chain H :=
  repeat match type of H with
  | snd (bind _ _) = Ok _ =>
      let a := fresh "a" in let Ha := fresh "Hm" in
      apply bind_ok_inv in H; destruct H as (a & Ha & H); cbv beta in H
  end.

(** The successful runs: the document written is [commit] applied to the
    result of [process_target_account], after both validations passed. *)
Lemma run_ok_inv isd low e st st' :
  snd (run isd low e st) = Ok st' ->
  exists tgt pw r errs,
    env_patch_ok e = true /\
    py_index (accounts st) (SInt (next_index st)) = Some tgt /\
    snd (process_target_account isd low e tgt pw) = Ok r /\
    str_truthy (tr_server_id r) = true /\ str_truthy (tr_ftp_host r) = true /\
    str_truthy (tr_ftp_user r) = true /\ str_truthy (session_of (tr_cookies r)) = true /\
    validate_state_before_save isd (commit st (next_index st) r) (next_index st)
      = Some (true, errs) /\
    st' = commit st (next_index st) r.
Proof.
  unfold run. destruct (env_config_ok e) eqn:Hc; simpl; [|discriminate].
  unfold main_try. rewrite bind_tell. cbv beta zeta. simpl.
  destruct (env_read_ok e); simpl; [|discriminate].
  destruct (py_index (accounts st) (get_default (active_account_index st) (SInt 0)))
    as [act|]; [|discriminate].
  unfold next_index.
  match goal with |- context [py_index (accounts st) ?i] =>
    destruct (py_index (accounts st) i) as [tgt|] eqn:Htgt; [|discriminate] end.
  intros H. ok_chain H.
  exists tgt. eexists. exists a0.
  destruct (str_truthy (tr_server_id a0)) eqn:H1; simpl in H; [|discriminate].
  destruct (str_truthy (tr_ftp_host a0)) eqn:H2; simpl in H; [|discriminate].
  destruct (str_truthy (tr_ftp_user a0)) eqn:H3; simpl in H; [|discriminate].
  destruct (str_truthy (session_of (tr_cookies a0))) eqn:H4; simpl in H; [|discriminate].
  unfold update_state in H. rewrite Hc in H. simpl in H.
  destruct (validate_state_before_save isd _ _) as [[[|] errs]|] eqn:Hv; [|discriminate..].
  simpl in H. destruct (env_patch_ok e) eqn:Hp; simpl in H; [|discriminate].
  injection H as <-. exists errs. repeat split; eauto.
Qed.

(** Walks a hypothesis [snd m = Ok _] through [let*], [if] and [match],
    discarding the branches that raise. *)
Ltac ok_walk H :=
  repeat (cbv beta iota zeta in H;
    match type of H with
    | snd (bind _ _) = Ok _ => apply bind_ok_inv in H; destruct H as (? & ? & H)
    | snd (if ?b then _ else _) = Ok _ => destruct b eqn:?
    | snd (match ?x with _ => _ end) = Ok _ => destruct x eqn:?
    | snd (raise _) = Ok _ => discriminate H
    end).

Ltac split_bools :=
  repeat match goal with
  | H : (_ || _) = false |- _ => apply orb_false_iff in H; destruct H
  | H : (_ && _) = true |- _ => apply andb_true_iff in H; destruct H
  | H : negb _ = false |- _ => apply negb_false_iff in H
  | H : Nat.ltb _ _ = false |- _ => apply Nat.ltb_ge in H
  end.

Lemma target_ok_props isd low e acc pw r :
  snd (process_target_account isd low e acc pw) = Ok r ->
  py_isdigit isd (tr_server_id r) = true /\
  (5 <= List.length (tr_ftp_host r))%nat /\
  (3 <= List.length (tr_ftp_user r))%nat /\
  str_truthy (session_of (tr_cookies r)) = true.
Proof.
  unfold process_target_account. intros H. ok_walk H.
  simpl in H. injection H as <-. simpl. split_bools.
  repeat split; auto.
  match goal with Hc : snd (if str_truthy (session_of _) then _ else _) = Ok _ |- _ =>
    ok_walk Hc; simpl in Hc; injection Hc as <-; assumption end.
Qed.

Lemma str_eqb_refl s : str_eqb s s = true.
Proof. induction s as [|c s IH]; simpl; auto. rewrite Z.eqb_refl. exact IH. Qed.

Lemma update_nth_length {A} n (f : A -> A) l : List.length (update_nth n f l) = List.length l.
Proof. revert n. induction l as [|x l IH]; intros [|n]; simpl; auto. Qed.

Lemma nth_error_update_nth_same {A} n (f : A -> A) l x :
  nth_error l n = Some x -> nth_error (update_nth n f l) n = Some (f x).
Proof.
  revert n. induction l as [|y l IH]; intros [|n]; simpl; try discriminate.
  - intros H. injection H as ->. reflexivity.
  - apply IH.
Qed.

Lemma nth_error_update_nth_other {A} n m (f : A -> A) l :
  n <> m -> nth_error (update_nth n f l) m = nth_error l m.
Proof.
  revert n m. induction l as [|y l IH]; intros [|n] [|m] Hnm; simpl; auto; try congruence.
Qed.

Lemma py_index_nonneg {A} (l : list A) k x :
  0 <= k -> py_index l (SInt k) = Some x -> nth_error l (Z.to_nat k) = Some x.
Proof.
  intros Hk. unfold py_index.
  destruct (Z.leb 0 k && Z.ltb k (Z.of_nat (List.length l))) eqn:H1; auto.
  destruct (Z.leb (- Z.of_nat (List.length l)) k && Z.ltb k 0) eqn:H2; [|discriminate].
  apply andb_true_iff in H2. destruct H2 as [_ H2]. apply Z.ltb_lt in H2. lia.
Qed.

Lemma next_index_01 st : next_index st = 0 \/ next_index st = 1.
Proof. unfold next_index. destruct (py_eq_zero _); auto. Qed.

Lemma validate_true_length isd st ti errs :
  validate_state_before_save isd st ti = Some (true, errs) ->
  List.length (accounts st) = 2%nat.
Proof.
  unfold validate_state_before_save.
  destruct (Nat.eqb (List.length (accounts st)) 2) eqn:H; simpl.
  - intros _. apply Nat.eqb_eq. exact H.
  - discriminate.
Qed.

Lemma session_found j : str_truthy (session_of j) = true ->
  exists tok, jar_get j BOXTOPLAY_SESSION = Some tok /\ str_truthy tok = true.
Proof.
  unfold session_of. destruct (jar_get j BOXTOPLAY_SESSION) as [tok|]; simpl.
  - eauto.
  - discriminate.
Qed.

Lemma main_ok_inv isd low e st :
  out_code (main isd low e st) = 0 ->
  exists tgt pw r errs,
    env_patch_ok e = true /\
    py_index (accounts st) (SInt (next_index st)) = Some tgt /\
    snd (process_target_account isd low e tgt pw) = Ok r /\
    str_truthy (tr_server_id r) = true /\ str_truthy (tr_ftp_host r) = true /\
    str_truthy (tr_ftp_user r) = true /\ str_truthy (session_of (tr_cookies r)) = true /\
    validate_state_before_save isd (commit st (next_index st) r) (next_index st)
      = Some (true, errs) /\
    out_store (main isd low e st) = commit st (next_index st) r.
Proof.
  intros Hc. destruct (main_ok_code _ _ _ _ Hc) as (t & st' & Hrun & ->).
  apply run_ok_inv. rewrite Hrun. reflexivity.
Qed.

(** The validation before saving accepts what a successful
    [process_target_account] commits. *)
Lemma validate_commit_ok isd st r :
  List.length (accounts st) = 2%nat ->
  py_isdigit isd (tr_server_id r) = true ->
  str_truthy (tr_ftp_host r) = true -> str_truthy (tr_ftp_user r) = true ->
  str_truthy (session_of (tr_cookies r)) = true ->
  validate_state_before_save isd (commit st (next_index st) r) (next_index st) = Some (true, []).
Proof.
  intros Hl Hd Hh Hu Hs.
  destruct st as [idx cur fpw [|a0 [|a1 [|a2 l]]]]; simpl in Hl; try discriminate.
  destruct r as [sid host user p [|c ck]]; cbn [tr_server_id tr_ftp_host tr_ftp_user tr_cookies] in *;
    [discriminate|].
  destruct sid as [|d sid]; [discriminate|]. destruct host as [|h host]; [discriminate|].
  destruct user as [|u user]; [discriminate|].
  destruct (session_of (c :: ck)) as [|s0 s] eqn:Hs'; [discriminate|].
  unfold validate_state_before_save, commit.
  destruct (next_index_01 (mk_state idx cur fpw [a0; a1])) as [-> | ->];
  cbv [py_index]; simpl in *; rewrite ?Hd, ?Hs', ?Z.eqb_refl, ?str_eqb_refl; reflexivity.
Qed.

(** Both logins against the outgoing account fail. *)
Lemma active_login_fail e acc :
  env_cookie_login e PhActive = false -> env_creds_login e PhActive = false ->
  exists t, process_active_account e acc = (t, Ok None) /\
    forallb (fun ev => negb (is_transfer_ev ev)) t = true.
Proof.
  intros H1 H2. unfold process_active_account, account_login, login_with_cookie,
    login_with_credentials. cbv beta zeta.
  destruct (str_truthy (session_of (jar_of (cookies acc)))); simpl; rewrite ?H1, ?H2;
    simpl; eexists; split; reflexivity.
Qed.

(** The final start never raises. *)
Lemma finalize_ok e acc sid :
  exists t, finalize_server e acc sid = (t, Ok tt) /\
    forallb (fun ev => negb (is_transfer_ev ev)) t = true.
Proof.
  unfold finalize_server, login_with_cookie. cbv beta zeta.
  destruct (str_truthy _); simpl; [destruct (env_cookie_login e PhFinal)|]; simpl;
    eexists; split; reflexivity.
Qed.

(** A transfer without a source does nothing. *)
Lemma transfer_none e t : transfer_world_data e None t = ([], Ok true).
Proof. reflexivity. Qed.

(** ** C2: a fatal run writes nothing *)

(** C2: every run that ends in the [except] branch of [main] (or in its
    configuration check), whatever the cause (target login, purchase, the
    ten panel polls, a validation, the gist read or write), returns 1,
    leaves the gist holding the document it held before, and no PATCH of
    the document was accepted during the run. *)
Theorem fatal_run_leaves_gist_unchanged isd low e st x :
  snd (run isd low e st) = Err x ->
  out_code (main isd low e st) = 1 /\
  out_store (main isd low e st) = st /\
  forallb not_accepted_patch (out_trace (main isd low e st)) = true.
Proof.
  intros H. destruct (main_err _ _ _ _ _ H) as [H1 H2]. repeat split; auto.
  rewrite main_trace. apply run_err_no_patch. rewrite H. reflexivity.
Qed.

(** ** C3: the slot flip *)

(** C3: from [active_account_index = 0], a run that returns 0 leaves a
    document with [active_account_index = 1], whose slot 1 has a server id,
    an FTP host, an FTP user and a [BOXTOPLAY_SESSION] cookie, all
    non-empty, and whose slot 0 is the slot 0 of the document before the
    run. *)
Theorem slot_flip_from_zero isd low e st :
  active_account_index st = Some (SInt 0) ->
  out_code (main isd low e st) = 0 ->
  active_account_index (out_store (main isd low e st)) = Some (SInt 1) /\
  nth_error (accounts (out_store (main isd low e st))) 0 = nth_error (accounts st) 0 /\
  exists a1 sid host user j tok,
    nth_error (accounts (out_store (main isd low e st))) 1 = Some a1 /\
    server_id a1 = Some (SStr sid) /\ str_truthy sid = true /\
    ftp_host a1 = Some (SStr host) /\ str_truthy host = true /\
    ftp_user a1 = Some (SStr user) /\ str_truthy user = true /\
    cookies a1 = Some j /\ jar_get j BOXTOPLAY_SESSION = Some tok /\ str_truthy tok = true.
Proof.
  intros Hidx Hc.
  destruct (main_ok_inv _ _ _ _ Hc)
    as (tgt & pw & r & errs & Hp & Htgt & Hr & H1 & H2 & H3 & H4 & Hv & ->).
  assert (Hni : next_index st = 1) by (unfold next_index; rewrite Hidx; reflexivity).
  rewrite Hni in *.
  apply validate_true_length in Hv. unfold commit in Hv. cbn [accounts] in Hv.
  rewrite update_nth_length in Hv.
  destruct (session_found _ H4) as (tok & Htok & Htt).
  unfold commit. simpl.
  destruct (accounts st) as [|a0 [|a1 [|a2 l]]]; simpl in Hv; try discriminate.
  simpl. repeat split; auto.
  do 6 eexists. repeat split; simpl; eauto.
Qed.

(** ** C4: the invariants of a committed document *)

(** C4 (as the code has it): a document written by a run has two
    accounts, an [active_account_index] of 0 or 1, and a
    [current_server_id] that is a non-empty string whose characters all
    pass [str.isdigit] — the Unicode digit test, not only ASCII '0'..'9' —
    and equal to the [server_id] of the active account. *)
Theorem committed_state_invariants isd low e st :
  out_code (main isd low e st) = 0 ->
  List.length (accounts (out_store (main isd low e st))) = 2%nat /\
  exists k sid a,
    active_account_index (out_store (main isd low e st)) = Some (SInt k) /\
    (k = 0 \/ k = 1) /\
    current_server_id (out_store (main isd low e st)) = Some (SStr sid) /\
    str_truthy sid = true /\ forallb isd sid = true /\
    nth_error (accounts (out_store (main isd low e st))) (Z.to_nat k) = Some a /\
    server_id a = Some (SStr sid).
Proof.
  intros Hc.
  destruct (main_ok_inv _ _ _ _ Hc)
    as (tgt & pw & r & errs & Hp & Htgt & Hr & H1 & H2 & H3 & H4 & Hv & ->).
  destruct (target_ok_props _ _ _ _ _ _ Hr) as (Hd & _ & _ & _).
  unfold py_isdigit in Hd. apply andb_true_iff in Hd. destruct Hd as [Hd1 Hd2].
  split.
  - apply validate_true_length in Hv. exact Hv.
  - apply py_index_nonneg in Htgt; [|destruct (next_index_01 st) as [-> | ->]; lia].
    exists (next_index st), (tr_server_id r).
    eexists. unfold commit; cbn [active_account_index current_server_id accounts].
    repeat split; auto.
    + apply next_index_01.
    + rewrite (nth_error_update_nth_same _ _ _ _ Htgt). reflexivity.
    + reflexivity.
Qed.

(** ** C6: the migration source captured by [process_active_account] *)

(** C6 (as the code has it): [process_active_account] never raises; it
    returns the credentials on file for the outgoing account exactly when
    one of its two logins succeeds, whatever the panel shows (a server id
    or none, so whether or not the server is stopped), and [None] when
    both logins fail. *)
Theorem active_capture_iff_login e acc :
  snd (process_active_account e acc) =
  Ok (if (str_truthy (session_of (jar_of (cookies acc))) && env_cookie_login e PhActive)
         || env_creds_login e PhActive
      then Some (captured_ftp e acc) else None).
Proof.
  unfold process_active_account, account_login, login_with_cookie,
    login_with_credentials, get_current_server_id, captured_ftp. cbv beta zeta.
  destruct (str_truthy (session_of (jar_of (cookies acc)))), (env_cookie_login e PhActive),
    (env_creds_login e PhActive); simpl; try reflexivity;
  destruct (option_map lstrip_hash (env_panel e PhActive 0)) as [s|]; simpl;
    try reflexivity; destruct (str_truthy s); reflexivity.
Qed.

(** ** C9: the errors of the validation before saving *)

(** C9 (as the code has it): when the slot about to be saved as active
    has an empty [server_id], an empty [ftp_host] and the two-letter
    [ftp_user] "ab", [validate_state_before_save] rejects the document and
    its error list holds the server id and FTP host failures but no FTP
    user failure: that check is a truthiness test, which "ab" passes (the
    length check lives in [validate_server_info], which does report three
    errors for these three values). *)
Theorem state_validation_partial_target isd low st ti t :
  List.length (accounts st) = 2%nat ->
  py_index (accounts st) (SInt ti) = Some t ->
  server_id t = Some (SStr []) -> ftp_host t = Some (SStr []) ->
  ftp_user t = Some (SStr (pstr "ab")) ->
  (exists errs,
     validate_state_before_save isd st ti = Some (false, errs) /\
     In StTargetServerId errs /\ In StTargetHost errs /\ ~ In StTargetUser errs) /\
  validate_server_info isd low [] [] (pstr "ab") = (false, [EServerIdEmpty; EHostEmpty; EUserShort]).
Proof.
  intros Hl Ht Hs Hh Hu. split; [|reflexivity].
  unfold validate_state_before_save. rewrite Hl, Ht. simpl.
  rewrite Hs, Hh, Hu. simpl.
  rewrite andb_false_r.
  destruct (active_account_index st) as [v|]; [destruct (py_in01 v)|];
  (destruct (current_server_id st) as [w|]; [destruct (_ && _)|]);
  (destruct (cookies t) as [j|]; [destruct (_ || _)|]);
  simpl; eexists; (split; [reflexivity|]); simpl; intuition discriminate.
Qed.

(** ** C5: a refused purchase *)


(** ** C10: a missing [active_account_index] *)

(** C10: when the document has no [active_account_index] key, [main]
    rotates to slot 1 ([next_index] is 1) and behaves exactly as on the
    same document with [active_account_index = 0]: the same calls, the
    same exit code and, when it returns 0, the same document written. *)
Theorem missing_index_as_zero isd low e st :
  active_account_index st = None ->
  let st0 := mk_state (Some (SInt 0)) (current_server_id st) (ftp_password st) (accounts st) in
  next_index st = 1 /\
  run isd low e st = run isd low e st0 /\
  out_code (main isd low e st) = out_code (main isd low e st0) /\
  out_trace (main isd low e st) = out_trace (main isd low e st0) /\
  (out_code (main isd low e st) = 0 -> out_store (main isd low e st) = out_store (main isd low e st0)).
Proof.
  intros Hn st0.
  assert (Hr : run isd low e st = run isd low e st0).
  { subst st0. destruct st as [[v|] cur pw accs]; [discriminate|]. reflexivity. }
  split; [unfold next_index; rewrite Hn; reflexivity|].
  split; [exact Hr|].
  unfold main. rewrite Hr.
  destruct (run isd low e st0) as [t [a|x]]; simpl; repeat split; auto; discriminate.
Qed.

(** ** C7: when the outgoing account is contacted *)

Lemma active_has_event e acc : existsb is_active_ev (fst (process_active_account e acc)) = true.
Proof.
  unfold process_active_account, account_login, login_with_cookie,
    login_with_credentials, get_current_server_id. cbv beta zeta.
  destruct (str_truthy (session_of (jar_of (cookies acc)))), (env_cookie_login e PhActive),
    (env_creds_login e PhActive); simpl; try reflexivity;
  destruct (option_map lstrip_hash (env_panel e PhActive 0)) as [s|]; simpl;
    try reflexivity; destruct (str_truthy s); reflexivity.
Qed.

(** C7 (as the code has it): a run makes a call against the outgoing
    account (a login, a panel visit, a DNS change, a stop or a logout)
    exactly when the configuration and the gist read succeed, both slots
    resolve, and the outgoing account has a truthy [ftp_host]; its
    [server_id] plays no part in the decision. *)
Theorem outgoing_contacted_iff isd low e st :
  existsb is_active_ev (out_trace (main isd low e st)) = true <->
  env_config_ok e = true /\ env_read_ok e = true /\
  exists act tgt,
    py_index (accounts st) (get_default (active_account_index st) (SInt 0)) = Some act /\
    py_index (accounts st) (SInt (next_index st)) = Some tgt /\
    py_truthy (get_null (ftp_host act)) = true.
Proof.
  rewrite main_trace. unfold run.
  destruct (env_config_ok e) eqn:Hc; simpl;
    [|split; [discriminate|intros (H & _); discriminate]].
  unfold main_try. rewrite bind_tell. cbv beta zeta. simpl.
  destruct (env_read_ok e) eqn:Hr; simpl;
    [|split; [discriminate|intros (_ & H & _); discriminate]].
  unfold next_index.
  destruct (py_index (accounts st) (get_default (active_account_index st) (SInt 0)))
    as [act|] eqn:Ha;
    [|split; [discriminate|intros (_ & _ & act' & tgt' & H & _); discriminate]].
  match goal with |- context [py_index (accounts st) ?i] =>
    destruct (py_index (accounts st) i) as [tgt|] eqn:Ht;
    [|split; [discriminate|intros (_ & _ & act' & tgt' & _ & H & _); discriminate]] end.
  destruct (py_truthy (get_null (ftp_host act))) eqn:Hh.
  - split; [intros _; eauto 7|intros _].
    apply existsb_bind. apply active_has_event.
  - split; [|intros (_ & _ & act' & tgt' & Ha' & _ & Hh'); congruence].
    intros H. exfalso. revert H. apply Bool.not_true_iff_false.
    apply existsb_false_of_forallb.
    match goal with |- forallb _ (fst ?m) = true =>
      change (all_ev (fun ev => negb (is_active_ev ev)) m) end.
    walk.
Qed.

(** ** C8: a failed login against the outgoing account *)

(** C8: when both logins against the outgoing account fail and the rest
    of the run succeeds (configuration, gist read, both slots,
    [process_target_account], the PATCH), [process_active_account]
    returns [None], [transfer_world_data] with no source makes no call and
    returns [True], and [main] returns 0 after writing the committed
    document; no lftp call is made during the run. *)
Theorem outgoing_auth_failure_nonfatal isd low e st act tgt r :
  env_config_ok e = true -> env_read_ok e = true ->
  List.length (accounts st) = 2%nat ->
  py_index (accounts st) (get_default (active_account_index st) (SInt 0)) = Some act ->
  py_index (accounts st) (SInt (next_index st)) = Some tgt ->
  env_cookie_login e PhActive = false -> env_creds_login e PhActive = false ->
  snd (process_target_account isd low e tgt (main_ftp_password e st)) = Ok r ->
  env_patch_ok e = true ->
  snd (process_active_account e act) = Ok None /\
  (forall t, transfer_world_data e None t = ([], Ok true)) /\
  out_code (main isd low e st) = 0 /\
  out_store (main isd low e st) = commit st (next_index st) r /\
  forallb (fun ev => negb (is_transfer_ev ev)) (out_trace (main isd low e st)) = true.
Proof.
  intros Hc Hr Hl Ha Ht Hk1 Hk2 Hp Hpatch.
  destruct (active_login_fail e act Hk1 Hk2) as (tA & HA & HnA).
  destruct (target_ok_props _ _ _ _ _ _ Hp) as (Hd & Hh & Hu & Hs).
  assert (Hrun : exists t, run isd low e st = (t, Ok (commit st (next_index st) r)) /\
                   forallb (fun ev => negb (is_transfer_ev ev)) t = true).
  { unfold run. rewrite Hc. cbn [negb].
    unfold main_try. rewrite bind_tell. cbv beta zeta. rewrite Hr. cbn [negb].
    unfold next_index in Ht. rewrite Ha, Ht.
    assert (Hsrc : (if py_truthy (get_null (ftp_host act))
                    then process_active_account e act else ret None)
                   = (if py_truthy (get_null (ftp_host act)) then tA else [], Ok None))
      by (destruct (py_truthy _); [exact HA|reflexivity]).
    rewrite (bind_ok _ _ _ None Hsrc). cbv beta.
    fold (main_ftp_password e st).
    destruct (process_target_account isd low e tgt (main_ftp_password e st)) as [tT rT] eqn:HT.
    cbn [snd] in Hp. subst rT.
    rewrite (bind_ok _ _ tT r eq_refl). cbv beta.
    rewrite (bind_ok _ _ [] true (transfer_none e _)). cbv beta.
    destruct (finalize_ok e (merge_result tgt r) (tr_server_id r)) as (tF & HF & HnF).
    rewrite (bind_ok _ _ _ tt HF). cbv beta.
    assert (Hs1 : str_truthy (tr_server_id r) = true)
      by (unfold py_isdigit in Hd; apply andb_true_iff in Hd; tauto).
    assert (Hh1 : str_truthy (tr_ftp_host r) = true)
      by (destruct (tr_ftp_host r); simpl in Hh; [lia|reflexivity]).
    assert (Hu1 : str_truthy (tr_ftp_user r) = true)
      by (destruct (tr_ftp_user r); simpl in Hu; [lia|reflexivity]).
    rewrite Hs1, Hh1, Hu1, Hs. cbn [negb].
    fold (next_index st). unfold update_state. rewrite Hc. cbn [negb].
    rewrite validate_commit_ok by auto. rewrite Hpatch.
    eexists. split; [reflexivity|].
    simpl. rewrite !forallb_app, HnF.
    destruct (py_truthy _); simpl; rewrite ?HnA; simpl.
    all: pose proof (target_no_transfer isd low e tgt (main_ftp_password e st)) as HnT;
      unfold all_ev in HnT; rewrite HT in HnT; cbn [fst] in HnT; rewrite HnT; reflexivity.
  }
  destruct Hrun as (t & Hrun & Htr).
  split; [rewrite HA; reflexivity|]. split; [apply transfer_none|].
  unfold main. rewrite Hrun. repeat split; [exact Htr].
Qed.

(** ** C1: a failed upload of the world *)

(** C1 (as the code has it, a concrete run): the slot 0 server is live,
    every call succeeds except the lftp upload to the new server.
    [transfer_world_data] reports the failure ([False]), but [main]
    discards its result: the new server is started, the rotation is
    committed with slot 1 active, and [main] returns 0. *)
Theorem upload_failure_not_fatal :
  let e := demo_env true true true true false true 0 (pstr "#445566") in
  let o := main isdigit_sample ascii_lower e st_demo in
  snd (transfer_world_data e (Some (captured_ftp e acc_live))
         (mk_ftp_info (SStr (pstr "ftp2.boxtoplay.com")) (SStr (pstr "user_1700000000"))
            (SStr (pstr "motdepasse")))) = Ok false /\
  In (EvUpload (SStr (pstr "ftp2.boxtoplay.com"))) (out_trace o) /\
  In (EvStart (pstr "445566")) (out_trace o) /\
  out_code o = 0 /\
  active_account_index (out_store o) = Some (SInt 1) /\
  current_server_id (out_store o) = Some (SStr (pstr "445566")).
Proof.
  vm_compute. repeat split; repeat (first [left; reflexivity | right]).
Qed.

(** ** Counterexamples to the claims as stated *)

(** A server id made of the superscript digits U+00B2 U+00B3 passes
    [str.isdigit] and is committed, although it is no string of ASCII
    digits. *)
Lemma committed_non_ascii_server_id :
  let o := main isdigit_sample ascii_lower
             (demo_env true true true true true true 0 [35; 178; 179]) st_demo in
  out_code o = 0 /\ current_server_id (out_store o) = Some (SStr [178; 179]) /\
  forallb is_ascii_digit [178; 179] = false.
Proof. vm_compute. repeat split. Qed.


(** When both logins against the outgoing account fail, nothing is
    captured, although FTP credentials are on file for it. *)
Lemma failed_login_no_capture :
  py_truthy (get_null (ftp_host acc_live)) = true /\
  snd (process_active_account (demo_env false false true true true true 0 (pstr "#445566"))
         acc_live) = Ok None.
Proof. vm_compute. split; reflexivity. Qed.

(** Slot 0 has no server id but an FTP host: the outgoing account is
    logged into, its panel read, and the server shown there stopped. *)
Lemma host_without_server_id_contacted :
  let o := main isdigit_sample ascii_lower env_all_ok st_host_no_id in
  nth_error (map server_id (accounts st_host_no_id)) 0 = Some (Some SNull) /\
  In (EvLoginCreds PhActive) (out_trace o) /\
  In (EvStop PhActive (pstr "123456")) (out_trace o).
Proof. vm_compute. repeat split; repeat (first [left; reflexivity | right]). Qed.

(** The document validation reports two errors, not three, for a target
    slot with server id "", FTP host "" and FTP user "ab". *)
Lemma partial_target_two_errors :
  validate_state_before_save isdigit_sample st_partial_target 1
  = Some (false, [StTargetServerId; StTargetHost]).
Proof. vm_compute. reflexivity. Qed.

(** ** Witnesses: the theorems at concrete inputs *)

Lemma fatal_run_leaves_gist_unchanged_witness :
  let e := demo_env true true false true true true 0 (pstr "#445566") in
  snd (run isdigit_sample ascii_lower e st_demo) = Err FBuy /\
  out_code (main isdigit_sample ascii_lower e st_demo) = 1 /\
  out_store (main isdigit_sample ascii_lower e st_demo) = st_demo /\
  forallb not_accepted_patch (out_trace (main isdigit_sample ascii_lower e st_demo)) = true.
Proof.
  intros e. split; [vm_compute; reflexivity|].
  apply (fatal_run_leaves_gist_unchanged isdigit_sample ascii_lower e st_demo FBuy).
  vm_compute. reflexivity.
Defined.

Lemma slot_flip_from_zero_witness :
  active_account_index (out_store (main isdigit_sample ascii_lower env_all_ok st_demo))
  = Some (SInt 1).
Proof.
  apply (slot_flip_from_zero isdigit_sample ascii_lower env_all_ok st_demo);
    vm_compute; reflexivity.
Defined.

Lemma committed_state_invariants_witness :
  List.length (accounts (out_store (main isdigit_sample ascii_lower env_all_ok st_demo)))
  = 2%nat.
Proof.
  apply (committed_state_invariants isdigit_sample ascii_lower env_all_ok st_demo).
  vm_compute. reflexivity.
Defined.


Lemma outgoing_auth_failure_nonfatal_witness :
  let e := demo_env false false true true true true 0 (pstr "#445566") in
  out_code (main isdigit_sample ascii_lower e st_demo) = 0 /\
  out_store (main isdigit_sample ascii_lower e st_demo)
  = commit st_demo (next_index st_demo) demo_target_result.
Proof.
  intros e.
  destruct (outgoing_auth_failure_nonfatal isdigit_sample ascii_lower e st_demo
              acc_live (acc_fresh "compte2@example.com") demo_target_result)
    as (_ & _ & H1 & H2 & _); try (vm_compute; reflexivity).
  split; assumption.
Defined.

Lemma state_validation_partial_target_witness :
  exists errs,
    validate_state_before_save isdigit_sample st_partial_target 1 = Some (false, errs) /\
    In StTargetServerId errs /\ In StTargetHost errs /\ ~ In StTargetUser errs.
Proof.
  destruct (state_validation_partial_target isdigit_sample ascii_lower st_partial_target 1
              (nth 1 (accounts st_partial_target) acc_live)) as [H _];
    try (vm_compute; reflexivity).
  exact H.
Defined.

Lemma missing_index_as_zero_witness :
  run isdigit_sample ascii_lower env_all_ok st_no_index
  = run isdigit_sample ascii_lower env_all_ok
      (mk_state (Some (SInt 0)) (current_server_id st_no_index) (ftp_password st_no_index)
         (accounts st_no_index)).
Proof.
  apply (missing_index_as_zero isdigit_sample ascii_lower env_all_ok st_no_index).
  reflexivity.
Defined.

(** ** Further properties of the worker *)

Lemma bind_fst {A B} (m : M A) (f : A -> M B) :
  fst (bind m f) = fst m ++ match snd m with Ok a => fst (f a) | Err _ => [] end.
Proof. destruct m as [t [a|x]]; simpl; [destruct (f a)|rewrite app_nil_r]; reflexivity. Qed.

Lemma bind_snd {A B} (m : M A) (f : A -> M B) :
  snd (bind m f) = match snd m with Ok a => snd (f a) | Err x => Err x end.
Proof. destruct m as [t [a|x]]; simpl; [destruct (f a)|]; reflexivity. Qed.

Lemma poll_spec e fuel k last :
  opt_truthy last = false ->
  let m := poll_server_id e fuel k last in
  (List.length (filter is_target_panel (fst m)) <= fuel)%nat /\
  (forall s, snd m = Ok s ->
     opt_truthy s = false /\ List.length (filter is_target_panel (fst m)) = fuel \/
     exists j sid, (j < fuel)%nat /\ s = Some sid /\ str_truthy sid = true /\
       panel_id e (k + j) = Some sid /\
       (forall i, (i < j)%nat -> opt_truthy (panel_id e (k + i)) = false) /\
       List.length (filter is_target_panel (fst m)) = S j).
Proof.
  revert k last. induction fuel as [|f IH]; intros k last Hl; cbn [poll_server_id].
  - simpl. split; [lia|]. intros s H. injection H as <-. left. auto.
  - unfold get_current_server_id. rewrite bind_fst, bind_snd. cbn [fst snd].
    rewrite bind_fst, bind_snd. cbn [fst snd tell ret].
    fold (panel_id e k).
    destruct (opt_truthy (panel_id e k)) eqn:Ht.
    + simpl. rewrite Ht. simpl. split; [lia|]. intros s H. injection H as <-. right.
      destruct (panel_id e k) as [sid|] eqn:Hp; [|discriminate].
      exists O, sid. rewrite Nat.add_0_r. repeat split; auto; lia.
    + destruct (IH (S k) (panel_id e k) Ht) as [H1 H2].
      simpl. rewrite Ht. simpl. split; [lia|]. intros s Hs. destruct (H2 s Hs) as [[A B]|(j & sid & Hj & -> & Hsid & Hpj & Hlt & Hlen)].
      * left. split; [auto|]. rewrite B. reflexivity.
      * right. exists (S j), sid.
        split; [lia|]. split; [reflexivity|]. split; [exact Hsid|]. split.
        -- rewrite <- Hpj. f_equal. lia.
        -- split; [|rewrite Hlen; reflexivity].
           intros [|i] Hi; [rewrite Nat.add_0_r; exact Ht|].
           replace (k + S i)%nat with (S k + i)%nat by lia. apply Hlt. lia.
Qed.

Lemma poll_never_err e fuel k last : is_err (snd (poll_server_id e fuel k last)) = false.
Proof.
  revert k last. induction fuel as [|f IH]; intros k last; cbn [poll_server_id]; [reflexivity|].
  unfold get_current_server_id. rewrite !bind_snd. cbn [snd tell ret].
  destruct (opt_truthy _); [reflexivity|apply IH].
Qed.

Ltac bind_steps :=
  repeat (rewrite ?bind_fst, ?bind_snd; cbn [fst snd tell ret raise negb orb andb]; cbv beta iota).

(** [process_target_account] visits the panel of the new account at most
    ten times; it raises "server not found" only after all ten visits,
    and the server id it returns is the first truthy id shown (with its
    leading '#' stripped), found at the visit that ends the polling. *)
Theorem target_polls_panel isd low e acc pw :
  let m := process_target_account isd low e acc pw in
  (List.length (filter is_target_panel (fst m)) <= 10)%nat /\
  (snd m = Err FServerNotFound -> List.length (filter is_target_panel (fst m)) = 10%nat) /\
  (forall r, snd m = Ok r ->
     exists j, (j < 10)%nat /\ panel_id e j = Some (tr_server_id r) /\
       (forall i, (i < j)%nat -> opt_truthy (panel_id e i) = false) /\
       List.length (filter is_target_panel (fst m)) = S j).
Proof.
  intros m. subst m.
  unfold process_target_account, account_login, login_with_cookie, login_with_credentials,
    buy_free_server. cbv beta zeta.
  remember (poll_server_id e 10 0 None) as P eqn:HP.
  destruct (poll_spec e 10 0 None eq_refl) as [Hb Hs]. cbv zeta in Hb, Hs. rewrite <- HP in Hb, Hs.
  destruct (str_truthy _), (env_cookie_login e PhTarget), (env_creds_login e PhTarget),
      (env_buy_ok e); bind_steps;
    try (repeat split; [simpl; lia|discriminate|discriminate]).
  all: pose proof (poll_never_err e 10 0 None) as Hne; rewrite <- HP in Hne.
  all: destruct P as [tp [found|x]]; cbn [fst snd] in *; [|discriminate]; bind_steps.
  all: destruct found as [sid|]; [destruct (str_truthy sid) eqn:Hst|]; cbn [negb]; bind_steps.
  all: unfold setup_ftp_account, get_all_cookies; bind_steps;
    try (destruct (env_ftp_host e); bind_steps; try (destruct pw; bind_steps));
    repeat (match goal with |- context [if ?b then _ else _] => destruct b end; bind_steps).
  all: specialize (Hs _ eq_refl); rewrite ?filter_app, ?length_app; simpl.
  all: split; [lia|]; split.
  all: try (intro Hx; discriminate).
  all: try (intros r Hr; discriminate).
  all: try (intros _; destruct Hs as [[_ H10]|(j&sid'&_&Hq&Ht&_)];
            [lia|try discriminate; injection Hq as <-; congruence]).
  all: intros r Hr; injection Hr as <-; cbn [tr_server_id].
  all: destruct Hs as [[Hf _]|(j&sid'&Hj&Hq&Ht&Hp&Hi&Hl)]; [simpl in Hf; congruence|].
  all: injection Hq as <-; exists j; repeat split; auto; lia.
Qed.

(** What a successful [process_target_account] returns: the FTP host
    read on the FTP page, the user [f"user_{int(time.time())}"], the FTP
    password it was given, and the cookies read after the modpack install
    when they hold a session, else the cookies read after reloading the
    panel. *)
Theorem target_ok_fields isd low e acc pw r :
  snd (process_target_account isd low e acc pw) = Ok r ->
  env_ftp_host e = Some (tr_ftp_host r) /\
  tr_ftp_user r = pstr "user_" ++ py_str_int (env_time e) /\
  tr_ftp_password r = pw /\
  tr_cookies r = (if str_truthy (session_of (env_cookies e)) then env_cookies e
                  else env_cookies_retry e).
Proof.
  unfold process_target_account, setup_ftp_account, get_all_cookies. intros H. ok_walk H.
  simpl in H. injection H as <-. cbn [tr_ftp_host tr_ftp_user tr_ftp_password tr_cookies].
  ok_walk H4. all: simpl in H4; injection H4 as <-.
  all: ok_walk H6; simpl in H6; injection H6 as <-.
  all: cbn [fa_host fa_user]; repeat split; auto.
  all: ok_walk H7; simpl in H7; injection H7 as <-; reflexivity.
Qed.

Ltac target_cases e :=
  unfold process_target_account, account_login, login_with_cookie, login_with_credentials,
    buy_free_server; cbv beta zeta;
  let P := fresh "P" in let HP := fresh "HP" in
  remember (poll_server_id e 10 0 None) as P eqn:HP;
  destruct (str_truthy _), (env_cookie_login e PhTarget), (env_creds_login e PhTarget),
      (env_buy_ok e); bind_steps;
  [ .. ];
  try (pose proof (poll_never_err e 10 0 None) as Hne; rewrite <- HP in Hne;
       let tp := fresh "tp" in let found := fresh "found" in
       destruct P as [tp [found|?]]; cbn [fst snd] in *; [|discriminate]; bind_steps;
       let sid := fresh "sid" in let Hst := fresh "Hst" in
       destruct found as [sid|]; [destruct (str_truthy sid) eqn:Hst|]; cbn [negb]; bind_steps;
       unfold setup_ftp_account, get_all_cookies; bind_steps;
       let h := fresh "h" in let Hh := fresh "Hh" in
       try (destruct (env_ftp_host e) as [h|] eqn:Hh; bind_steps;
            try (match goal with |- context [match ?p with SNull => _ | _ => _ end] =>
                   destruct p end; bind_steps);
            cbn [fa_host fa_user fa_password]);
       repeat (match goal with |- context [if ?b then _ else _] =>
                 let Hb := fresh "Hb" in destruct b eqn:Hb end; bind_steps)).

(** Membership in a trace whose prefix is written out. *)
Ltac in_tree :=
  first [ reflexivity | left; in_tree | right; in_tree | apply in_or_app; right; in_tree ].

(** The FTP user check of [process_target_account] never fails (the user
    "user_" followed by the digits of the time has at least six
    characters), and its final [validate_server_info] call can only fail
    on the host: the host then contains neither "." nor, lower-cased,
    "boxtoplay". *)
Theorem target_user_and_info_checks isd low e acc pw :
  snd (process_target_account isd low e acc pw) <> Err FBadUser /\
  (snd (process_target_account isd low e acc pw) = Err FServerInfo ->
   exists h, env_ftp_host e = Some h /\
     str_contains (low h) (pstr "boxtoplay") = false /\ str_contains h (pstr ".") = false).
Proof.
  target_cases e.
  all: try (split; [discriminate|intro Hx; discriminate]).
  all: try (exfalso; simpl in *; discriminate).
  all: split; [discriminate|intros _; exists h; split; [reflexivity|]].
  all: cbn [py_str] in Hb; apply negb_false_iff in Hb; apply orb_false_iff in Hb0; destruct Hb0 as [Hb0 _];
    apply negb_false_iff in Hb0.
  all: match goal with H : negb (fst (validate_server_info _ _ _ _ _)) = true |- _ =>
    rename H into Hv end.
  all: unfold validate_server_info in Hv; cbv zeta in Hv; cbn [py_str] in Hv;
    rewrite Hst, Hb, Hb0 in Hv.
  all: destruct (str_contains (low h) (pstr "boxtoplay")),
    (str_contains h (pstr ".")); simpl in Hv; try (split; reflexivity); congruence.
Qed.

(** When [process_target_account] raises in its validation block (server
    id, FTP host, FTP user, session cookie, [validate_server_info]), the
    server has already been bought, its DNS set, an FTP account created
    and the modpack installed on it. *)
Theorem target_effects_before_checks isd low e acc pw x :
  snd (process_target_account isd low e acc pw) = Err x ->
  In x [FBadServerId; FBadHost; FBadUser; FNoCookie; FServerInfo] ->
  exists sid,
    let t := fst (process_target_account isd low e acc pw) in
    In EvBuy t /\ In (EvDns PhTarget sid (env_ip_new_server e)) t /\
    In (EvFtpSetup sid) t /\ In (EvModpack sid) t /\ In EvCookies t.
Proof.
  target_cases e.
  all: intros Hx Hin; cbv zeta.
  all: try (injection Hx as <-); try discriminate Hx.
  all: try (exfalso; simpl in Hin; intuition discriminate).
  all: exists sid; repeat split; in_tree.
Qed.

(** [validate_server_info] accepts exactly when the server id passes
    [str.isdigit], the host is non-empty and contains "." or, lower-cased,
    "boxtoplay", and the user has at least three characters; it accepts
    exactly when it logs no error, and it logs at most three errors. *)
Theorem validate_server_info_spec isd low sid host user :
  let v := validate_server_info isd low sid host user in
  (fst v = true <->
     py_isdigit isd sid = true /\ str_truthy host = true /\
     (str_contains (low host) (pstr "boxtoplay") || str_contains host (pstr ".")) = true /\
     (3 <= List.length user)%nat) /\
  (fst v = true <-> snd v = []) /\
  (List.length (snd v) <= 3)%nat.
Proof.
  intros v. subst v. unfold validate_server_info, py_isdigit. cbv zeta. cbn [py_str].
  destruct sid as [|c sid]; cbn [str_truthy negb andb];
  [|destruct (forallb isd (c :: sid))];
  (destruct host as [|h host]; cbn [str_truthy negb];
   [|destruct (str_contains (low (h :: host)) (pstr "boxtoplay")),
       (str_contains (h :: host) (pstr "."))]);
  (destruct user as [|u user]; cbn [str_truthy negb];
   [|destruct (Nat.ltb (List.length (u :: user)) 3) eqn:Hu;
     [apply Nat.ltb_lt in Hu|apply Nat.ltb_ge in Hu]]);
  simpl; repeat split; intros; try lia; try discriminate;
  repeat match goal with H : _ /\ _ |- _ => destruct H end; try discriminate; try (simpl in *; lia); auto.
Qed.

Lemma py_index_out_of_range {A} (l : list A) k :
  (k < - Z.of_nat (List.length l) \/ Z.of_nat (List.length l) <= k) -> py_index l (SInt k) = None.
Proof.
  intros H. unfold py_index.
  destruct (Z.leb 0 k && Z.ltb k (Z.of_nat (List.length l))) eqn:H1.
  - apply andb_true_iff in H1. destruct H1 as [H1 H2]. apply Z.leb_le in H1. apply Z.ltb_lt in H2. lia.
  - destruct (Z.leb (- Z.of_nat (List.length l)) k && Z.ltb k 0) eqn:H2; [|reflexivity].
    apply andb_true_iff in H2. destruct H2 as [H2 H3]. apply Z.leb_le in H2. apply Z.ltb_lt in H3. lia.
Qed.

(** [validate_state_before_save] returns [False] without logging and
    without reading [target_index] when the document does not have two
    accounts.  With two accounts, the indices -1 and -2 validate the same
    slot as 1 and 0, any other index outside -2..1 raises [IndexError]
    ([None]), and the indices -2..1 never raise. *)
Theorem validate_state_index isd st :
  (List.length (accounts st) <> 2%nat ->
   forall ti, validate_state_before_save isd st ti = Some (false, [])) /\
  (List.length (accounts st) = 2%nat ->
   validate_state_before_save isd st (-1) = validate_state_before_save isd st 1 /\
   validate_state_before_save isd st (-2) = validate_state_before_save isd st 0 /\
   (forall ti, (ti < -2 \/ 2 <= ti) -> validate_state_before_save isd st ti = None) /\
   (forall ti, (-2 <= ti < 2) -> validate_state_before_save isd st ti <> None)).
Proof.
  split.
  - intros Hl ti. unfold validate_state_before_save.
    destruct (Nat.eqb (List.length (accounts st)) 2) eqn:H; [apply Nat.eqb_eq in H; lia|reflexivity].
  - intros Hl. unfold validate_state_before_save. rewrite Hl. cbn [Nat.eqb negb].
    repeat split.
    + destruct (accounts st) as [|a0 [|a1 [|a2 l]]]; simpl in Hl; try discriminate. reflexivity.
    + destruct (accounts st) as [|a0 [|a1 [|a2 l]]]; simpl in Hl; try discriminate. reflexivity.
    + intros ti Hti. rewrite py_index_out_of_range; [reflexivity|]. rewrite Hl. simpl. lia.
    + intros ti Hti.
      destruct (accounts st) as [|a0 [|a1 [|a2 l]]]; simpl in Hl; try discriminate.
      assert (ti = -2 \/ ti = -1 \/ ti = 0 \/ ti = 1) as [-> | [-> | [-> | ->]]] by lia;
        unfold py_index; simpl; discriminate.
Qed.

Lemma str_eqb_eq a b : str_eqb a b = true <-> a = b.
Proof.
  split; [|intros ->; apply str_eqb_refl].
  revert b. induction a as [|c a IH]; intros [|d b]; simpl; try discriminate; auto.
  intros H. apply andb_true_iff in H. destruct H as [H1 H2].
  apply Z.eqb_eq in H1. subst. f_equal. apply IH. exact H2.
Qed.

Lemma nil_test_iff {A} (l : list A) :
  (match l with [] => true | _ :: _ => false end) = true <-> l = [].
Proof. destruct l; split; intros; congruence. Qed.

Lemma app_nil_iff {A} (l1 l2 : list A) : l1 ++ l2 = [] <-> l1 = [] /\ l2 = [].
Proof. split; [apply app_eq_nil|intros [-> ->]; reflexivity]. Qed.

Lemma if_nil_iff {A} (b : bool) (x : A) : (if b then [] else [x]) = [] <-> b = true.
Proof. destruct b; split; intros; congruence. Qed.

(** [validate_state_before_save] accepts a document exactly when it has
    two accounts, an [active_account_index] in [0, 1], a
    [current_server_id] key whose value, when truthy, passes
    [str.isdigit], and a target slot whose [server_id], [ftp_host] and
    [ftp_user] are truthy and whose cookies hold a non-empty
    [BOXTOPLAY_SESSION]; a truthy [current_server_id] must then print as
    the target's [server_id]. *)
Theorem validate_state_accept isd st ti :
  (exists errs, validate_state_before_save isd st ti = Some (true, errs)) <->
  List.length (accounts st) = 2%nat /\
  (exists v, active_account_index st = Some v /\ py_in01 v = true) /\
  (exists c, current_server_id st = Some c /\
     (py_truthy c = true -> py_isdigit isd (py_str c) = true)) /\
  exists t, py_index (accounts st) (SInt ti) = Some t /\
    py_truthy (get_null (server_id t)) = true /\
    py_truthy (get_null (ftp_host t)) = true /\
    py_truthy (get_null (ftp_user t)) = true /\
    str_truthy (session_of (jar_of (cookies t))) = true /\
    (py_truthy (get_null (current_server_id st)) = true ->
     py_str (get_null (current_server_id st)) = py_str (get_null (server_id t))).
Proof.
  unfold validate_state_before_save.
  destruct (Nat.eqb (List.length (accounts st)) 2) eqn:Hl; cbn [negb];
    [apply Nat.eqb_eq in Hl|split; [intros [errs H]; discriminate|
       intros [H _]; apply Nat.eqb_neq in Hl; contradiction]].
  destruct (py_index (accounts st) (SInt ti)) as [t|];
    [|split; [intros [errs H]; discriminate|intros (_ & _ & _ & t & H & _); discriminate]].
  split.
  - intros [errs H]. injection H as H _. apply nil_test_iff in H.
    rewrite !app_nil_iff in H.
    destruct H as (Hi & Hc & Hs & Hh & Hu & Hk & Hm).
    split; [exact Hl|]. split.
    { destruct (active_account_index st) as [v|]; [|discriminate].
      exists v. split; [reflexivity|]. destruct (py_in01 v); [reflexivity|discriminate]. }
    split.
    { destruct (current_server_id st) as [c|]; [|discriminate].
      exists c. split; [reflexivity|]. intros Hct. rewrite Hct in Hc.
      destruct (py_isdigit isd (py_str c)); [reflexivity|discriminate]. }
    exists t. rewrite if_nil_iff in Hs, Hh, Hu.
    repeat split; auto.
    + destruct (cookies t) as [j|]; [|discriminate]. cbn [jar_of].
      destruct (str_truthy (session_of j)); [reflexivity|].
      rewrite orb_true_r in Hk. discriminate.
    + intros Hct. rewrite Hct, Hs in Hm. cbn [andb] in Hm.
      destruct (str_eqb _ _) eqn:He; [apply str_eqb_eq in He; exact He|discriminate].
  - intros (_ & (v & Hv & Hi) & (c & Hc & Hd) & t' & Ht & Hs & Hh & Hu & Hk & Hm).
    injection Ht as <-. eexists. f_equal. f_equal. apply nil_test_iff.
    rewrite !app_nil_iff. rewrite Hv, Hc, Hi, Hs, Hh, Hu.
    repeat split.
    + destruct (py_truthy c) eqn:Hct; [rewrite (Hd eq_refl)|]; reflexivity.
    + destruct (cookies t) as [j|]; [|discriminate]. cbn [jar_of] in Hk. rewrite Hk.
      destruct j; [discriminate|reflexivity].
    + cbn [get_null]. destruct (py_truthy c) eqn:Hct; [|reflexivity].
      rewrite Hc in Hm. cbn [get_null] in Hm. rewrite (Hm Hct), str_eqb_refl. reflexivity.
Qed.

(** [update_state] makes at most one call: a PATCH of the very document
    it was given.  Without [target_index] the PATCH is made whenever the
    configuration is set, with no validation; with an index it is made
    exactly when, moreover, [validate_state_before_save] accepts.  It
    returns normally exactly when that PATCH was made and accepted.  The
    call of [main] makes the same calls and raises the same errors as
    [update_state] with its index, and returns the document when that
    returns. *)
Theorem update_state_patch isd e st ti :
  let m := update_state_opt isd e st ti in
  (fst m = [] \/ fst m = [EvPatch st (env_patch_ok e)]) /\
  (fst m <> [] <->
   env_config_ok e = true /\
   match ti with
   | None => True
   | Some i => exists errs, validate_state_before_save isd st i = Some (true, errs)
   end) /\
  (snd m = Ok tt <-> fst m = [EvPatch st true]) /\
  (forall i, fst (update_state isd e st i) = fst (update_state_opt isd e st (Some i)) /\
     snd (update_state isd e st i) =
       match snd (update_state_opt isd e st (Some i)) with Ok _ => Ok st | Err x => Err x end).
Proof.
  intros m. subst m. split; [|split; [|split]].
  - unfold update_state_opt.
    destruct (env_config_ok e); cbn [negb]; [|left; reflexivity].
    destruct ti as [i|]; [destruct (validate_state_before_save isd st i) as [[[|] errs]|]|];
      cbn; try (left; reflexivity); destruct (env_patch_ok e); right; reflexivity.
  - unfold update_state_opt.
    destruct (env_config_ok e); cbn [negb];
      [|split; [intros H; exfalso; apply H; reflexivity|intros [H _]; discriminate]].
    destruct ti as [i|];
      [destruct (validate_state_before_save isd st i) as [[[|] errs]|]|]; cbn;
      try destruct (env_patch_ok e); cbn;
      (split; [intros _; eauto|intros _; discriminate]) ||
      (split; [intros H; exfalso; apply H; reflexivity|intros (_ & ? & H); discriminate]).
  - unfold update_state_opt.
    destruct (env_config_ok e); cbn [negb]; [|split; discriminate].
    destruct ti as [i|]; [destruct (validate_state_before_save isd st i) as [[[|] errs]|]|];
      cbn; try (split; discriminate);
      destruct (env_patch_ok e); cbn; split; try reflexivity; discriminate.
  - intros i. unfold update_state, update_state_opt.
    destruct (env_config_ok e); cbn [negb]; [|split; reflexivity].
    destruct (validate_state_before_save isd st i) as [[[|] errs]|]; cbn; [|split; reflexivity..].
    destruct (env_patch_ok e); split; reflexivity.
Qed.

(** When [state["accounts"][current_index]] or
    [state["accounts"][next_index]] raises (an index out of range, or not
    an [int]), [main] returns 1 after the gist read alone: no browser
    step, no transfer, no PATCH, and the gist keeps its document. *)
Theorem main_bad_index isd low e st :
  env_config_ok e = true -> env_read_ok e = true ->
  (py_index (accounts st) (get_default (active_account_index st) (SInt 0)) = None \/
   py_index (accounts st) (SInt (next_index st)) = None) ->
  main isd low e st = mk_outcome 1 st [EvGet].
Proof.
  intros Hc Hr Hi. unfold main, run. rewrite Hc. cbn [negb].
  unfold main_try. rewrite bind_tell. cbv beta zeta. rewrite Hr. cbn [negb].
  unfold next_index in Hi.
  destruct Hi as [Hi|Hi].
  - rewrite Hi. reflexivity.
  - rewrite Hi. destruct (py_index (accounts st) (get_default (active_account_index st) (SInt 0))); reflexivity.
Qed.

(** A run that returns 0 writes a document with the same [ftp_password]
    and the same number of accounts, leaves the other slot untouched, and
    keeps the email, password and [ftp_password] of the activated slot:
    the FTP password used for the new server is not stored in the slot. *)
Theorem main_ok_frame isd low e st :
  out_code (main isd low e st) = 0 ->
  let st' := out_store (main isd low e st) in
  let ni := Z.to_nat (next_index st) in
  ftp_password st' = ftp_password st /\
  List.length (accounts st') = List.length (accounts st) /\
  nth_error (accounts st') (1 - ni) = nth_error (accounts st) (1 - ni) /\
  exists t t', nth_error (accounts st) ni = Some t /\ nth_error (accounts st') ni = Some t' /\
    email t' = email t /\ password t' = password t /\
    acc_ftp_password t' = acc_ftp_password t.
Proof.
  intros Hc.
  destruct (main_ok_inv _ _ _ _ Hc)
    as (tgt & pw & r & errs & Hp & Htgt & Hr & H1 & H2 & H3 & H4 & Hv & Hs).
  cbv zeta. rewrite Hs. unfold commit. cbn [ftp_password accounts].
  apply py_index_nonneg in Htgt; [|destruct (next_index_01 st) as [-> | ->]; lia].
  split; [reflexivity|]. split; [apply update_nth_length|]. split.
  - apply nth_error_update_nth_other. destruct (next_index_01 st) as [-> | ->]; simpl; lia.
  - exists tgt. eexists. split; [exact Htgt|].
    split; [apply nth_error_update_nth_same; exact Htgt|]. repeat split.
Qed.

Lemma forallb_suffix (P : event -> bool) l1 x l2 l3 l4 :
  l1 ++ x :: l2 = l3 ++ l4 -> ~ In x l3 -> forallb P l4 = true -> forallb P l2 = true.
Proof.
  revert l1. induction l3 as [|y l3 IH]; intros l1 H Hn H4.
  - simpl in H. subst l4. rewrite forallb_app in H4. apply andb_true_iff in H4.
    destruct H4 as [_ H4]. simpl in H4. apply andb_true_iff in H4. apply H4.
  - destruct l1 as [|z l1]; simpl in H; injection H as H1 H2.
    + subst. exfalso. apply Hn. left. reflexivity.
    + apply (IH l1 H2); [intros Hi; apply Hn; right; exact Hi|exact H4].
Qed.

Lemma active_all_active e acc : forallb is_active_ev (fst (process_active_account e acc)) = true.
Proof.
  unfold process_active_account, account_login, login_with_cookie,
    login_with_credentials, get_current_server_id. cbv beta zeta.
  destruct (str_truthy (session_of (jar_of (cookies acc)))), (env_cookie_login e PhActive),
    (env_creds_login e PhActive); simpl; try reflexivity;
  destruct (option_map lstrip_hash (env_panel e PhActive 0)) as [s|]; simpl;
    try reflexivity; destruct (str_truthy s); reflexivity.
Qed.

(** Once the purchase request is made, a run makes no further call
    against the outgoing account (no login, panel visit, DNS change, stop
    or logout of that session). *)
Theorem no_outgoing_call_after_purchase isd low e st pre post :
  out_trace (main isd low e st) = pre ++ EvBuy :: post ->
  forallb (fun ev => negb (is_active_ev ev)) post = true.
Proof.
  rewrite main_trace. unfold run.
  destruct (env_config_ok e); cbn [negb];
    [|intros H; destruct pre; discriminate].
  unfold main_try. rewrite bind_tell. cbv beta zeta.
  destruct (env_read_ok e); cbn [negb];
    [|intros H; destruct pre as [|? [|]]; discriminate].
  destruct (py_index (accounts st) (get_default (active_account_index st) (SInt 0))) as [act|];
    [|intros H; destruct pre as [|? [|]]; discriminate].
  match goal with |- context [py_index (accounts st) ?i] =>
    destruct (py_index (accounts st) i) as [tgt|]; [|intros H; destruct pre as [|? [|]]; discriminate] end.
  cbn [fst]. rewrite bind_fst. rewrite app_assoc. intros H.
  apply (forallb_suffix _ _ _ _ _ _ (eq_sym H)).
  - rewrite in_app_iff. intros [[Hx|[]]|Hx]; [discriminate|].
    destruct (py_truthy (get_null (ftp_host act))); [|destruct Hx].
    pose proof (active_all_active e act) as Ha. rewrite forallb_forall in Ha.
    specialize (Ha _ Hx). discriminate.
  - destruct (snd _) as [src|x]; [|reflexivity].
    match goal with |- forallb _ (fst ?m) = true =>
      change (all_ev (fun ev => negb (is_active_ev ev)) m) end.
    walk; auto using target_no_active, transfer_no_active, finalize_no_active, update_no_active.
    all: unfold login_with_cookie; walk.
Qed.

Lemma app_cons_split (l1 l2 l3 l4 : list event) x :
  l1 ++ x :: l2 = l3 ++ l4 -> ~ In x l3 -> exists l0, l4 = l0 ++ x :: l2.
Proof.
  revert l1. induction l3 as [|y l3 IH]; intros l1 H Hn.
  - simpl in H. eauto.
  - destruct l1 as [|z l1]; simpl in H; injection H as H1 H2.
    + subst. exfalso. apply Hn. left. reflexivity.
    + apply (IH l1 H2). intros Hi. apply Hn. right. exact Hi.
Qed.

Lemma patch_last_bind {A} (m : M A) (f : A -> M state) :
  all_ev (fun ev => negb (is_patch ev)) m ->
  (forall a, snd m = Ok a -> patch_last (f a)) -> patch_last (bind m f).
Proof.
  unfold patch_last, all_ev. intros Hm Hf pre d b post H.
  assert (Hn : ~ In (EvPatch d b) (fst m)).
  { intros Hi. rewrite forallb_forall in Hm. specialize (Hm _ Hi). discriminate. }
  rewrite bind_fst in H. rewrite bind_snd.
  destruct (snd m) as [a|x] eqn:Hs.
  - destruct (app_cons_split _ _ _ _ _ (eq_sym H) Hn) as [l0 Hl0]. exact (Hf a eq_refl l0 d b post Hl0).
  - rewrite app_nil_r in H. exfalso. apply Hn. rewrite H. apply in_or_app. right. left. reflexivity.
Qed.

Lemma patch_last_raise x : patch_last (raise x).
Proof. intros pre d b post H. destruct pre; discriminate. Qed.

Lemma patch_last_update isd e st ti : patch_last (update_state isd e st ti).
Proof.
  unfold update_state. destruct (env_config_ok e); cbn [negb]; [|apply patch_last_raise].
  destruct (validate_state_before_save isd st ti) as [[[|] errs]|]; try apply patch_last_raise.
  destruct (env_patch_ok e) eqn:Hpk;
    intros pre d b post H; rewrite bind_fst in H; rewrite bind_snd; cbn in H |- *;
    (destruct pre as [|? [|]]; cbn in H; try discriminate);
    injection H as H1 H2 H3; subst; split; reflexivity.
Qed.

Ltac steps_all :=
  unfold process_target_account, process_active_account, transfer_world_data,
    finalize_server, account_login, buy_free_server,
    setup_ftp_account, get_all_cookies, get_current_server_id,
    login_with_cookie, login_with_credentials;
  cbv beta zeta.

Lemma poll_no_patch_at_all e fuel k last :
  all_ev (fun ev => negb (is_patch ev)) (poll_server_id e fuel k last).
Proof.
  revert k last. induction fuel as [|f IH]; intros k last; cbn [poll_server_id].
  - apply all_ev_ret.
  - unfold get_current_server_id. walk.
Qed.

Lemma steps_no_patch_at_all isd low e :
  (forall acc, all_ev (fun ev => negb (is_patch ev)) (process_active_account e acc)) /\
  (forall acc pw, all_ev (fun ev => negb (is_patch ev)) (process_target_account isd low e acc pw)) /\
  (forall src tgt, all_ev (fun ev => negb (is_patch ev)) (transfer_world_data e src tgt)) /\
  (forall acc sid, all_ev (fun ev => negb (is_patch ev)) (finalize_server e acc sid)).
Proof.
  repeat split; intros; steps_all; walk; auto using poll_no_patch_at_all.
Qed.

(** The gist PATCH is the last call of a run, so a run makes at most
    one.  When it is accepted the run returns 0 and the gist holds the
    patched document; when it is refused the run returns 1 and the gist
    keeps the document it held. *)
Theorem patch_is_last isd low e st pre d b post :
  out_trace (main isd low e st) = pre ++ EvPatch d b :: post ->
  post = [] /\
  (b = true -> out_code (main isd low e st) = 0 /\ out_store (main isd low e st) = d) /\
  (b = false -> out_code (main isd low e st) = 1 /\ out_store (main isd low e st) = st).
Proof.
  assert (Hp : patch_last (run isd low e st)).
  { destruct (steps_no_patch_at_all isd low e) as (H1 & H2 & H3 & H4).
    unfold run. destruct (env_config_ok e); cbn [negb]; [|apply patch_last_raise].
    unfold main_try. cbv zeta.
    apply patch_last_bind; [reflexivity|intros _ _].
    destruct (env_read_ok e); cbn [negb]; [|apply patch_last_raise].
    destruct (py_index _ _); [|apply patch_last_raise].
    destruct (py_index _ _); [|apply patch_last_raise].
    apply patch_last_bind; [destruct (py_truthy _); [apply H1|apply all_ev_ret]|intros src _].
    apply patch_last_bind; [apply H2|intros r _].
    apply patch_last_bind; [apply H3|intros ok _].
    apply patch_last_bind; [apply H4|intros u _].
    repeat (destruct (negb _); [apply patch_last_raise|]).
    apply patch_last_update. }
  rewrite main_trace. intros H. destruct (Hp _ _ _ _ H) as [Hpost Hs].
  split; [exact Hpost|]. unfold main.
  destruct (run isd low e st) as [t r]. cbn [snd] in Hs. subst r.
  destruct b; split; intros Hb; try discriminate; split; reflexivity.
Qed.

(** [process_active_account] stops a server exactly when one of its two
    logins succeeds and the panel shows a non-empty server id, and it
    stops the server the panel shows (not the [server_id] on file); the
    DNS of that server is cleared just before the stop. *)
Theorem active_stops_panel_server e acc s :
  let t := fst (process_active_account e acc) in
  (In (EvStop PhActive s) t <->
   ((str_truthy (session_of (jar_of (cookies acc))) && env_cookie_login e PhActive)
    || env_creds_login e PhActive) = true /\
   option_map lstrip_hash (env_panel e PhActive 0) = Some s /\ str_truthy s = true) /\
  (In (EvStop PhActive s) t ->
   exists pre post, t = pre ++ EvDns PhActive s [] :: EvStop PhActive s :: post).
Proof.
  intros t. subst t.
  unfold process_active_account, account_login, login_with_cookie,
    login_with_credentials, get_current_server_id. cbv beta zeta.
  destruct (str_truthy (session_of (jar_of (cookies acc)))), (env_cookie_login e PhActive),
    (env_creds_login e PhActive); cbn;
  try (destruct (option_map lstrip_hash (env_panel e PhActive 0)) as [s'|]; cbn;
       [destruct (str_truthy s') eqn:Hs; cbn|]);
  (split; [split|]).
  all: try (intros (H & _); discriminate H).
  all: try (intros (_ & H & H'); injection H as <-; congruence).
  all: try (intros (_ & H & _); discriminate H).
  all: try (intros (_ & H & _); injection H as <-;
            repeat (first [left; reflexivity | right])).
  all: intros H; repeat destruct H as [H|H]; try discriminate H; try contradiction;
    injection H as <-; auto.
  all: match goal with |- exists pre post, ?l = _ =>
    exists (firstn (List.length l - 3) l), [EvLogout PhActive]; reflexivity end.
Qed.

Lemma str_eqb_sym a b : str_eqb a b = str_eqb b a.
Proof.
  destruct (str_eqb a b) eqn:H1, (str_eqb b a) eqn:H2; auto.
  - apply str_eqb_eq in H1. subst. rewrite str_eqb_refl in H2. discriminate.
  - apply str_eqb_eq in H2. subst. rewrite str_eqb_refl in H1. discriminate.
Qed.

Lemma jar_get_dict_set d k v k' :
  jar_get (dict_set d k v) k' = if str_eqb k' k then Some v else jar_get d k'.
Proof.
  induction d as [|[k0 v0] r IH]; cbn [dict_set jar_get].
  - reflexivity.
  - destruct (str_eqb k k0) eqn:Hk.
    + apply str_eqb_eq in Hk. subst k0. cbn [jar_get].
      destruct (str_eqb k' k); reflexivity.
    + cbn [jar_get]. rewrite IH.
      destruct (str_eqb k' k0) eqn:H1; [|reflexivity].
      apply str_eqb_eq in H1. subst k'. rewrite str_eqb_sym, Hk. reflexivity.
Qed.

Lemma jar_get_app l1 l2 k :
  jar_get (l1 ++ l2) k = match jar_get l1 k with Some v => Some v | None => jar_get l2 k end.
Proof.
  induction l1 as [|[k0 v0] r IH]; cbn [app jar_get]; [reflexivity|].
  destruct (str_eqb k k0); [reflexivity|exact IH].
Qed.

Lemma keys_dict_set d k v :
  map fst (dict_set d k v) = if existsb (str_eqb k) (map fst d) then map fst d else map fst d ++ [k].
Proof.
  induction d as [|[k0 v0] r IH]; cbn [dict_set map existsb fst]; [reflexivity|].
  destruct (str_eqb k k0) eqn:Hk; cbn [map fst orb]; [reflexivity|].
  rewrite IH. destruct (existsb (str_eqb k) (map fst r)); reflexivity.
Qed.

Lemma existsb_str_eqb_in k l : existsb (str_eqb k) l = true <-> In k l.
Proof.
  rewrite existsb_exists. split.
  - intros (x & Hx & He). apply str_eqb_eq in He. subst. exact Hx.
  - intros H. exists k. split; [exact H|apply str_eqb_refl].
Qed.

Lemma fold_dict_get cs d k :
  jar_get (fold_left (fun d c => dict_set d (fst c) (snd c)) cs d) k =
  match jar_get (rev cs) k with Some v => Some v | None => jar_get d k end.
Proof.
  revert d. induction cs as [|[n v] cs IH]; intros d; cbn [fold_left rev]; [reflexivity|].
  rewrite IH, jar_get_app, jar_get_dict_set. cbn [jar_get fst snd].
  destruct (jar_get (rev cs) k); [reflexivity|].
  destruct (str_eqb k n); reflexivity.
Qed.

Lemma fold_dict_keys cs d :
  NoDup (map fst d) ->
  NoDup (map fst (fold_left (fun d c => dict_set d (fst c) (snd c)) cs d)) /\
  (forall k, In k (map fst (fold_left (fun d c => dict_set d (fst c) (snd c)) cs d)) <->
             In k (map fst d) \/ In k (map fst cs)).
Proof.
  revert d. induction cs as [|[n v] cs IH]; intros d Hd; cbn [fold_left].
  - split; [exact Hd|]. intros k. simpl. tauto.
  - assert (Hd' : NoDup (map fst (dict_set d n v)) /\
                  forall k, In k (map fst (dict_set d n v)) <-> k = n \/ In k (map fst d)).
    { rewrite keys_dict_set. destruct (existsb (str_eqb n) (map fst d)) eqn:He.
      - apply existsb_str_eqb_in in He. split; [exact Hd|]. intros k. split; [auto|].
        intros [->|H]; auto.
      - split.
        + apply NoDup_app; auto using NoDup_cons, NoDup_nil.
          intros x Hx [Hy|[]]. subst x. apply Bool.not_true_iff_false in He. apply He.
          apply existsb_str_eqb_in. exact Hx.
        + intros k. rewrite in_app_iff. simpl. intuition. }
    destruct Hd' as [Hn Hk]. destruct (IH _ Hn) as [H1 H2]. split; [exact H1|].
    intros k. rewrite H2, Hk. simpl. intuition (subst; auto).
Qed.

Lemma all_cookies_dict_get cs k : jar_get (all_cookies_dict cs) k = jar_get (rev cs) k.
Proof.
  unfold all_cookies_dict. rewrite fold_dict_get. destruct (jar_get (rev cs) k); reflexivity.
Qed.

(** The dict comprehension of [get_all_cookies] maps each cookie name to
    the value of the last cookie of that name, holds each name once, and
    holds exactly the names of the cookies. *)
Theorem all_cookies_dict_spec cs :
  (forall k, jar_get (all_cookies_dict cs) k = jar_get (rev cs) k) /\
  NoDup (map fst (all_cookies_dict cs)) /\
  (forall k, In k (map fst (all_cookies_dict cs)) <-> In k (map fst cs)).
Proof.
  destruct (fold_dict_keys cs [] (NoDup_nil _)) as [H1 H2].
  split; [apply all_cookies_dict_get|].
  unfold all_cookies_dict. split; [exact H1|]. intros k. rewrite H2. simpl. tauto.
Qed.

Lemma get_session_cookie_first cs : get_session_cookie cs = session_of cs.
Proof.
  unfold session_of. induction cs as [|[n v] cs IH]; cbn [get_session_cookie jar_get]; [reflexivity|].
  rewrite str_eqb_sym. destruct (str_eqb BOXTOPLAY_SESSION n); [reflexivity|exact IH].
Qed.

Lemma jar_get_rev_single (l : jar) k :
  (List.length (filter (fun c => str_eqb (fst c) k) l) <= 1)%nat ->
  jar_get (rev l) k = jar_get l k.
Proof.
  induction l as [|[n v] l IH]; intros Hl; cbn [rev jar_get]; [reflexivity|].
  rewrite jar_get_app. cbn [jar_get]. cbn [filter fst] in Hl.
  rewrite (str_eqb_sym k n). destruct (str_eqb n k) eqn:Hn.
  - cbn [List.length] in Hl.
    assert (H0 : jar_get l k = None).
    { clear IH. induction l as [|[n' v'] l IH']; cbn [jar_get]; [reflexivity|].
      cbn [filter fst] in Hl. rewrite str_eqb_sym.
      destruct (str_eqb n' k); [cbn [List.length] in Hl; lia|apply IH'; exact Hl]. }
    rewrite IH by lia. rewrite H0. reflexivity.
  - rewrite IH by exact Hl. destruct (jar_get l k); reflexivity.
Qed.

(** When at most one cookie is named [BOXTOPLAY_SESSION],
    [get_session_cookie] returns the session that
    [get_all_cookies(...).get("BOXTOPLAY_SESSION", "")] reads. *)
Theorem session_cookie_readers_agree cs :
  (List.length (filter (fun c => str_eqb (fst c) BOXTOPLAY_SESSION) cs) <= 1)%nat ->
  get_session_cookie cs = session_of (all_cookies_dict cs).
Proof.
  intros H. rewrite get_session_cookie_first. unfold session_of.
  rewrite all_cookies_dict_get, jar_get_rev_single by exact H.
  reflexivity.
Qed.

Lemma existsb_bind_ok (P : event -> bool) {A B} (m : M A) (f : A -> M B) b :
  snd (bind m f) = Ok b ->
  exists a, snd m = Ok a /\ snd (f a) = Ok b /\
    existsb P (fst (bind m f)) = existsb P (fst m) || existsb P (fst (f a)).
Proof.
  rewrite bind_fst, bind_snd. destruct (snd m) as [a|x]; [|discriminate].
  intros H. exists a. rewrite existsb_app. auto.
Qed.

Lemma existsb_none_all (P : event -> bool) {A} (m : M A) :
  all_ev (fun ev => negb (P ev)) m -> existsb P (fst m) = false.
Proof. apply existsb_false_of_forallb. Qed.

Lemma poll_no_start e fuel k last :
  all_ev (fun ev => negb (is_start ev)) (poll_server_id e fuel k last).
Proof.
  revert k last. induction fuel as [|f IH]; intros k last; cbn [poll_server_id].
  - apply all_ev_ret.
  - unfold get_current_server_id. walk.
Qed.

Lemma steps_no_start isd low e :
  (forall acc, all_ev (fun ev => negb (is_start ev)) (process_active_account e acc)) /\
  (forall acc pw, all_ev (fun ev => negb (is_start ev)) (process_target_account isd low e acc pw)) /\
  (forall src tgt, all_ev (fun ev => negb (is_start ev)) (transfer_world_data e src tgt)) /\
  (forall st ti, all_ev (fun ev => negb (is_start ev)) (update_state isd e st ti)).
Proof.
  repeat split; intros; steps_all; try unfold update_state; walk; auto using poll_no_start.
Qed.

Lemma ok_run_start_existsb isd low e st :
  out_code (main isd low e st) = 0 ->
  existsb is_start (out_trace (main isd low e st)) = env_cookie_login e PhFinal.
Proof.
  intros Hc. destruct (main_ok_code _ _ _ _ Hc) as (t & st' & Hrun & _).
  destruct (steps_no_start isd low e) as (Ha & Ht & Htr & Hu).
  rewrite main_trace.
  assert (Hok : snd (run isd low e st) = Ok st') by (rewrite Hrun; reflexivity).
  clear Hc Hrun. revert Hok.
  unfold run. destruct (env_config_ok e); cbn [negb]; [|discriminate].
  unfold main_try. cbv zeta. intros Hok.
  destruct (existsb_bind_ok is_start _ _ _ Hok) as (u & _ & Hok1 & ->).
  cbn [fst tell existsb is_start orb].
  revert Hok1. destruct (env_read_ok e); cbn [negb]; [|discriminate].
  destruct (py_index _ _) as [act|]; [|discriminate].
  destruct (py_index _ _) as [tgt|]; [|discriminate].
  intros Hok1.
  destruct (existsb_bind_ok is_start _ _ _ Hok1) as (src & _ & Hok2 & ->).
  rewrite existsb_none_all by (destruct (py_truthy _); [apply Ha|apply all_ev_ret]).
  destruct (existsb_bind_ok is_start _ _ _ Hok2) as (r & Hr & Hok3 & ->).
  rewrite existsb_none_all by apply Ht.
  destruct (existsb_bind_ok is_start _ _ _ Hok3) as (ok & _ & Hok4 & ->).
  rewrite existsb_none_all by apply Htr.
  destruct (existsb_bind_ok is_start _ _ _ Hok4) as (v & _ & Hok5 & ->).
  cbn [orb].
  destruct (target_ok_props _ _ _ _ _ _ Hr) as (_ & _ & _ & Hs).
  revert Hok5.
  repeat (destruct (negb _); [discriminate|]). intros Hok5.
  rewrite (existsb_none_all _ (update_state isd e _ _) (Hu _ _)).
  unfold finalize_server, login_with_cookie, merge_result. cbn [cookies jar_of]. rewrite Hs.
  destruct (env_cookie_login e PhFinal); reflexivity.
Qed.

Lemma finalize_snd e acc sid : snd (finalize_server e acc sid) = Ok tt.
Proof. destruct (finalize_ok e acc sid) as (t & -> & _). reflexivity. Qed.

Lemma run_final_login_snd isd low e st b :
  snd (run isd low (with_final_login e b) st) = snd (run isd low e st).
Proof.
  set (e' := with_final_login e b).
  unfold run, main_try. cbv zeta.
  change (process_active_account e') with (process_active_account e).
  change (process_target_account isd low e') with (process_target_account isd low e).
  change (transfer_world_data e') with (transfer_world_data e).
  change (update_state isd e') with (update_state isd e).
  change (env_config_ok e') with (env_config_ok e).
  change (env_read_ok e') with (env_read_ok e).
  change (env_ftp_password e') with (env_ftp_password e).
  destruct (env_config_ok e); cbn [negb]; [|reflexivity].
  rewrite !bind_snd. cbn [snd tell].
  destruct (env_read_ok e); cbn [negb]; [|reflexivity].
  destruct (py_index (accounts st) (get_default (active_account_index st) (SInt 0))) as [act|];
    [|reflexivity].
  destruct (py_index (accounts st) _) as [tgt|]; [|reflexivity].
  do 3 (rewrite !bind_snd;
         match goal with |- match snd ?m with _ => _ end = _ =>
           destruct (snd m); [|reflexivity] end).
  rewrite !finalize_snd. reflexivity.
Qed.

(** The exit code of [main] and the document the gist holds after it do
    not depend on the cookie login of the final session: a failed final
    login does not stop the run from committing the rotation.  A run that
    returns 0 has started the new server exactly when that login
    succeeded. *)
Theorem ok_run_start_iff isd low e st :
  (forall b, out_code (main isd low (with_final_login e b) st) = out_code (main isd low e st) /\
     out_store (main isd low (with_final_login e b) st) = out_store (main isd low e st)) /\
  (out_code (main isd low e st) = 0 ->
   existsb is_start (out_trace (main isd low e st)) = env_cookie_login e PhFinal).
Proof.
  split.
  - intros b. pose proof (run_final_login_snd isd low e st b) as H.
    unfold main. destruct (run isd low (with_final_login e b) st) as [t' r'].
    destruct (run isd low e st) as [t r]. cbn [snd] in H. subst r'.
    destruct r; split; reflexivity.
  - intros Hc. apply ok_run_start_existsb. exact Hc.
Qed.

(** ** Witnesses of the further properties *)

Lemma target_ok_fields_witness :
  snd (process_target_account isdigit_sample ascii_lower env_all_ok
         (acc_fresh "compte2@example.com") (SStr (pstr "motdepasse"))) = Ok demo_target_result /\
  (env_ftp_host env_all_ok = Some (tr_ftp_host demo_target_result) /\
   tr_ftp_user demo_target_result = pstr "user_" ++ py_str_int (env_time env_all_ok) /\
   tr_ftp_password demo_target_result = SStr (pstr "motdepasse") /\
   tr_cookies demo_target_result =
     (if str_truthy (session_of (env_cookies env_all_ok)) then env_cookies env_all_ok
      else env_cookies_retry env_all_ok)).
Proof.
  split; [vm_compute; reflexivity|].
  apply (target_ok_fields isdigit_sample ascii_lower env_all_ok
           (acc_fresh "compte2@example.com") (SStr (pstr "motdepasse")) demo_target_result).
  vm_compute. reflexivity.
Defined.

Lemma target_effects_before_checks_witness :
  snd (process_target_account isdigit_sample ascii_lower env_short_host
         (acc_fresh "compte2@example.com") (SStr (pstr "motdepasse"))) = Err FBadHost /\
  exists sid,
    let t := fst (process_target_account isdigit_sample ascii_lower env_short_host
                    (acc_fresh "compte2@example.com") (SStr (pstr "motdepasse"))) in
    In EvBuy t /\ In (EvDns PhTarget sid (env_ip_new_server env_short_host)) t /\
    In (EvFtpSetup sid) t /\ In (EvModpack sid) t /\ In EvCookies t.
Proof.
  split; [vm_compute; reflexivity|].
  apply (target_effects_before_checks isdigit_sample ascii_lower env_short_host
           (acc_fresh "compte2@example.com") (SStr (pstr "motdepasse")) FBadHost).
  - vm_compute. reflexivity.
  - right. left. reflexivity.
Defined.

Lemma main_bad_index_witness :
  let st := mk_state (Some (SInt 2)) (current_server_id st_demo) (ftp_password st_demo)
              (accounts st_demo) in
  main isdigit_sample ascii_lower env_all_ok st = mk_outcome 1 st [EvGet].
Proof.
  intros st. apply main_bad_index; [reflexivity|reflexivity|].
  left. reflexivity.
Defined.

Lemma main_ok_frame_witness :
  out_code (main isdigit_sample ascii_lower env_all_ok st_demo) = 0 /\
  let st' := out_store (main isdigit_sample ascii_lower env_all_ok st_demo) in
  let ni := Z.to_nat (next_index st_demo) in
  ftp_password st' = ftp_password st_demo /\
  List.length (accounts st') = List.length (accounts st_demo) /\
  nth_error (accounts st') (1 - ni) = nth_error (accounts st_demo) (1 - ni) /\
  exists t t', nth_error (accounts st_demo) ni = Some t /\ nth_error (accounts st') ni = Some t' /\
    email t' = email t /\ password t' = password t /\
    acc_ftp_password t' = acc_ftp_password t.
Proof.
  split; [vm_compute; reflexivity|].
  apply (main_ok_frame isdigit_sample ascii_lower env_all_ok st_demo).
  vm_compute. reflexivity.
Defined.

Lemma no_outgoing_call_after_purchase_witness :
  let t := out_trace (main isdigit_sample ascii_lower env_all_ok st_demo) in
  t = firstn 7 t ++ EvBuy :: skipn 8 t /\
  forallb (fun ev => negb (is_active_ev ev)) (skipn 8 t) = true.
Proof.
  intros t. split; [vm_compute; reflexivity|].
  apply (no_outgoing_call_after_purchase isdigit_sample ascii_lower env_all_ok st_demo
           (firstn 7 t) (skipn 8 t)).
  vm_compute. reflexivity.
Defined.

Lemma patch_is_last_witness :
  let t := out_trace (main isdigit_sample ascii_lower env_all_ok st_demo) in
  let d := out_store (main isdigit_sample ascii_lower env_all_ok st_demo) in
  t = firstn 18 t ++ [EvPatch d true] /\
  ([] : list event) = [] /\
  (true = true -> out_code (main isdigit_sample ascii_lower env_all_ok st_demo) = 0 /\
                  out_store (main isdigit_sample ascii_lower env_all_ok st_demo) = d) /\
  (true = false -> out_code (main isdigit_sample ascii_lower env_all_ok st_demo) = 1 /\
                   out_store (main isdigit_sample ascii_lower env_all_ok st_demo) = st_demo).
Proof.
  intros t d. split; [vm_compute; reflexivity|].
  apply (patch_is_last isdigit_sample ascii_lower env_all_ok st_demo (firstn 18 t) d true []).
  vm_compute. reflexivity.
Defined.

Lemma session_cookie_readers_agree_witness :
  let cs := [(BOXTOPLAY_SESSION, pstr "s1"); (pstr "lang", pstr "fr")] in
  (List.length (filter (fun c => str_eqb (fst c) BOXTOPLAY_SESSION) cs) <= 1)%nat /\
  get_session_cookie cs = session_of (all_cookies_dict cs).
Proof.
  intros cs. split; [vm_compute; lia|].
  apply (session_cookie_readers_agree cs). vm_compute. lia.
Defined.

Lemma ok_run_start_iff_witness :
  out_code (main isdigit_sample ascii_lower (with_final_login env_all_ok false) st_demo) = 0 /\
  existsb is_start (out_trace (main isdigit_sample ascii_lower
                                 (with_final_login env_all_ok false) st_demo)) = false.
Proof.
  destruct (ok_run_start_iff isdigit_sample ascii_lower (with_final_login env_all_ok false) st_demo)
    as [_ H].
  split; [vm_compute; reflexivity|]. apply H. vm_compute. reflexivity.
Defined.
